(** * Device trust and transfer risk decisions of the banking back end

    A shallow embedding of [banking-app-backend.js]: the request handlers
    [POST /api/auth/register], [POST /api/auth/login],
    [GET /api/devices/status], [POST /api/devices/trust],
    [POST /api/transfers/create], [GET /api/transfers/history], the two
    assessment helpers [assessDeviceRisk] and [performFraudDetection], and
    the token middleware [verifyToken].

    Conventions of the model.
    - A JavaScript Number is [NaN], an infinity, or an exact finite value
      (a rational): rounding to binary64 and the sign of zero are not
      modelled, every comparison of the handlers is.
    - A JavaScript string is the sequence of its code units, here code units
      below 256; hashing encodes a string as UTF-8 as [Hash.update] does.
    - An object with named fields (the device fingerprint) is the list of its
      fields in property enumeration order, which for the non-numeric field
      names of a fingerprint is insertion order.
    - The collections are lists of documents in insertion order; [save]
      hands a document to the store, which keeps what it is given and
      enforces the unique indexes the schemas declare.  Casting done by the
      object mapper beyond that is not modelled.
    - A request body has the fields the handler destructures, each of the
      type the handler expects (a string, a number, a mapping of strings) or
      missing; past [verifyToken] a protected route carries [req.userId].
    - The scorer is a function from what is interpolated into the prompt to
      the text of its reply, or to a failure; the calls are logged.
    - [new Date()] and the schema default [Date.now] read one instant per
      request, passed in as [now]. *)

From Stdlib Require Import List String Ascii Bool Arith ZArith NArith QArith.
From Stdlib Require Import Lia Lqa Permutation Sorted.
Import ListNotations.

Close Scope Q_scope.
Local Open Scope nat_scope.
Local Open Scope list_scope.
Local Open Scope string_scope.

(** ** JavaScript strings *)

Module JSString.

(** White space and line terminators removed by [trim] and skipped by
    [parseFloat]: TAB, LF, VT, FF, CR, SP, NBSP. *)
Definition is_space (c : ascii) : bool :=
  let n := nat_of_ascii c in
  ((9 <=? n)%nat && (n <=? 13)%nat) || (n =? 32)%nat || (n =? 160)%nat.

Fixpoint trimStart (s : string) : string :=
  match s with
  | String c r => if is_space c then trimStart r else s
  | EmptyString => EmptyString
  end.

Fixpoint trimEnd (s : string) : string :=
  match s with
  | EmptyString => EmptyString
  | String c r =>
      match trimEnd r with
      | EmptyString => if is_space c then EmptyString else String c EmptyString
      | r' => String c r'
      end
  end.

Definition trim (s : string) : string := trimEnd (trimStart s).

(** [s.includes(sub)] *)
Fixpoint includes (sub s : string) : bool :=
  if prefix sub s then true
  else match s with
       | String _ r => includes sub r
       | EmptyString => false
       end.

(** [s.split(sep)] for a separator of one code unit; the result is never
    empty, and the empty string splits into one empty string. *)
Fixpoint split (sep : ascii) (s : string) : list string :=
  match s with
  | EmptyString => [EmptyString]
  | String c r =>
      if Ascii.eqb c sep then EmptyString :: split sep r
      else match split sep r with
           | h :: t => String c h :: t
           | [] => [String c EmptyString]
           end
  end.

(** [x || d] on a possibly undefined string: the empty string is falsy. *)
Definition truthy (o : option string) : option string :=
  match o with
  | Some EmptyString => None
  | other => other
  end.

(** [line?.split(':')[1]?.trim()] *)
Definition field_after_colon (line : option string) : option string :=
  match line with
  | None => None
  | Some l => option_map trim (nth_error (split ":" l) 1)
  end.

End JSString.

(** ** JavaScript numbers *)

Module JSNumber.

Inductive number : Type :=
| NaN
| NegInfinity
| Infinity
| Finite (q : Q).

Definition Qlt_bool (x y : Q) : bool := negb (Qle_bool y x).

(** [a < b]; false when the comparison is undefined. *)
Definition lt (a b : number) : bool :=
  match a, b with
  | NaN, _ | _, NaN => false
  | _, NegInfinity => false
  | NegInfinity, _ => true
  | Infinity, _ => false
  | Finite _, Infinity => true
  | Finite x, Finite y => Qlt_bool x y
  end.

(** [a > b] is [b < a]. *)
Definition gt (a b : number) : bool := lt b a.

Definition isNaN (a : number) : bool :=
  match a with NaN => true | _ => false end.

(** [a <= b]: neither is [NaN] and not [b < a]. *)
Definition le (a b : number) : bool :=
  negb (isNaN a) && negb (isNaN b) && negb (lt b a).

(** [!a]: zero and [NaN] are falsy. *)
Definition falsy (a : number) : bool :=
  match a with
  | NaN => true
  | Finite q => Qeq_bool q 0%Q
  | _ => false
  end.

(** [a - b] *)
Definition sub (a b : number) : number :=
  match a, b with
  | NaN, _ | _, NaN => NaN
  | Infinity, Infinity | NegInfinity, NegInfinity => NaN
  | Infinity, _ | _, NegInfinity => Infinity
  | NegInfinity, _ | _, Infinity => NegInfinity
  | Finite x, Finite y => Finite (x - y)%Q
  end.

(** [Math.max(a, b)] and [Math.min(a, b)]: [NaN] when an argument is. *)
Definition Math_max (a b : number) : number :=
  if isNaN a || isNaN b then NaN else if lt a b then b else a.

Definition Math_min (a b : number) : number :=
  if isNaN a || isNaN b then NaN else if lt b a then b else a.

(** *** [parseFloat] *)

Definition is_digit (c : ascii) : bool :=
  let n := nat_of_ascii c in (48 <=? n)%nat && (n <=? 57)%nat.

(** The longest run of decimal digits at the head, and what follows. *)
Fixpoint span_digits (s : string) : list nat * string :=
  match s with
  | String c r =>
      if is_digit c
      then let (ds, r') := span_digits r in ((nat_of_ascii c - 48)%nat :: ds, r')
      else ([], s)
  | EmptyString => ([], s)
  end.

Definition digits_value (ds : list nat) : Z :=
  fold_left (fun acc d => (10 * acc + Z.of_nat d)%Z) ds 0%Z.

Definition pow10 (e : Z) : Q := Qpower (10 # 1) e.

(** An optional sign at the head: [true] for [-]. *)
Definition take_sign (s : string) : bool * string :=
  match s with
  | String "-" r => (true, r)
  | String "+" r => (false, r)
  | _ => (false, s)
  end.

(** The exponent part [e[+-]digits]; absent or without digits it is 0. *)
Definition take_exponent (s : string) : Z :=
  match s with
  | String c r =>
      if Ascii.eqb c "e" || Ascii.eqb c "E"
      then let (neg, r1) := take_sign r in
           match span_digits r1 with
           | ([], _) => 0%Z
           | (ds, _) => if neg then (- digits_value ds)%Z else digits_value ds
           end
      else 0%Z
  | EmptyString => 0%Z
  end.

(** [parseFloat(s)]: leading white space is skipped, then the longest
    prefix that is a decimal literal is read; [NaN] when there is none. *)
Definition parseFloat (s : string) : number :=
  let (neg, s1) := take_sign (JSString.trimStart s) in
  if prefix "Infinity" s1 then (if neg then NegInfinity else Infinity)
  else
    let (ip, s2) := span_digits s1 in
    let (fp, s3) :=
      match s2 with
      | String "." r => span_digits r
      | _ => ([], s2)
      end in
    match ip, fp with
    | [], [] => NaN
    | _, _ =>
        let mant := digits_value (ip ++ fp) in
        let e := (take_exponent s3 - Z.of_nat (List.length fp))%Z in
        let v := (inject_Z mant * pow10 e)%Q in
        Finite (if neg then (- v)%Q else v)
    end.

End JSNumber.

(** ** SHA-256 ([crypto.createHash('sha256')], FIPS 180-4) *)

Module Sha256.

Local Open Scope N_scope.

Definition two32 : N := 4294967296.

Definition add32 (x y : N) : N := (x + y) mod two32.

Definition rotr (n x : N) : N :=
  N.lor (N.shiftr x n) ((N.shiftl x (32 - n)) mod two32).

Definition not32 (x : N) : N := N.lxor x (two32 - 1).

Definition Ch (x y z : N) : N := N.lxor (N.land x y) (N.land (not32 x) z).

Definition Maj (x y z : N) : N :=
  N.lxor (N.lxor (N.land x y) (N.land x z)) (N.land y z).

Definition Sigma0 (x : N) : N := N.lxor (N.lxor (rotr 2 x) (rotr 13 x)) (rotr 22 x).
Definition Sigma1 (x : N) : N := N.lxor (N.lxor (rotr 6 x) (rotr 11 x)) (rotr 25 x).
Definition sigma0 (x : N) : N := N.lxor (N.lxor (rotr 7 x) (rotr 18 x)) (N.shiftr x 3).
Definition sigma1 (x : N) : N := N.lxor (N.lxor (rotr 17 x) (rotr 19 x)) (N.shiftr x 10).

(** The round constants, in decimal. *)
Definition K : list N :=
  [ 1116352408; 1899447441; 3049323471; 3921009573; 961987163; 1508970993;
    2453635748; 2870763221; 3624381080; 310598401; 607225278; 1426881987;
    1925078388; 2162078206; 2614888103; 3248222580; 3835390401; 4022224774;
    264347078; 604807628; 770255983; 1249150122; 1555081692; 1996064986;
    2554220882; 2821834349; 2952996808; 3210313671; 3336571891; 3584528711;
    113926993; 338241895; 666307205; 773529912; 1294757372; 1396182291;
    1695183700; 1986661051; 2177026350; 2456956037; 2730485921; 2820302411;
    3259730800; 3345764771; 3516065817; 3600352804; 4094571909; 275423344;
    430227734; 506948616; 659060556; 883997877; 958139571; 1322822218;
    1537002063; 1747873779; 1955562222; 2024104815; 2227730452; 2361852424;
    2428436474; 2756734187; 3204031479; 3329325298 ].

Record hstate : Type := mkH {
  ha : N; hb : N; hc : N; hd : N; he : N; hf : N; hg : N; hh : N }.

Definition H0 : hstate :=
  mkH 1779033703 3144134277 1013904242 2773480762
      1359893119 2600822924 528734635 1541459225.

(** Padding: the bit 1, zero bytes up to 56 modulo 64, then the length of
    the message in bits as eight bytes, most significant first. *)
Definition length_bytes (bits : N) : list N :=
  map (fun i => (N.shiftr bits (8 * i)) mod 256) [7; 6; 5; 4; 3; 2; 1; 0].

Definition pad (msg : list N) : list N :=
  let len := List.length msg in
  let zeros := ((119 - len mod 64) mod 64)%nat in
  msg ++ [128] ++ repeat 0 zeros ++ length_bytes (8 * N.of_nat len).

(** Four bytes to a word, most significant first. *)
Fixpoint words (bs : list N) : list N :=
  match bs with
  | b0 :: b1 :: b2 :: b3 :: r =>
      (N.shiftl b0 24 + N.shiftl b1 16 + N.shiftl b2 8 + b3) :: words r
  | _ => []
  end.

(** The message schedule, newest word first while it is extended. *)
Fixpoint extend (n : nat) (w : list N) : list N :=
  match n with
  | O => w
  | S n' =>
      let g i := nth i w 0 in
      extend n' (add32 (add32 (sigma1 (g 1%nat)) (g 6%nat))
                       (add32 (sigma0 (g 14%nat)) (g 15%nat)) :: w)
  end.

Definition schedule (block : list N) : list N := rev (extend 48 (rev block)).

Definition round (s : hstate) (kw : N * N) : hstate :=
  let t1 := add32 (add32 (add32 (hh s) (Sigma1 (he s))) (Ch (he s) (hf s) (hg s)))
                  (add32 (fst kw) (snd kw)) in
  let t2 := add32 (Sigma0 (ha s)) (Maj (ha s) (hb s) (hc s)) in
  mkH (add32 t1 t2) (ha s) (hb s) (hc s) (add32 (hd s) t1) (he s) (hf s) (hg s).

Definition compress (h : hstate) (block : list N) : hstate :=
  let s := fold_left round (combine K (schedule block)) h in
  mkH (add32 (ha h) (ha s)) (add32 (hb h) (hb s)) (add32 (hc h) (hc s))
      (add32 (hd h) (hd s)) (add32 (he h) (he s)) (add32 (hf h) (hf s))
      (add32 (hg h) (hg s)) (add32 (hh h) (hh s)).

(** The padded message is consumed sixteen words at a time. *)
Fixpoint blocks (n : nat) (ws : list N) (h : hstate) : hstate :=
  match n with
  | O => h
  | S n' =>
      match ws with
      | [] => h
      | _ => blocks n' (skipn 16 ws) (compress h (firstn 16 ws))
      end
  end.

Definition digest_words (msg : list N) : list N :=
  let ws := words (pad msg) in
  let h := blocks (List.length ws) ws H0 in
  [ha h; hb h; hc h; hd h; he h; hf h; hg h; hh h].

(** [digest('hex')]: lower-case hexadecimal, eight digits a word. *)
Definition hex_digit (n : N) : ascii :=
  if n <? 10 then ascii_of_N (48 + n) else ascii_of_N (87 + n).

Definition hex_word (w : N) : string :=
  fold_right (fun i acc => String (hex_digit ((N.shiftr w (4 * i)) mod 16)) acc)
             EmptyString [7; 6; 5; 4; 3; 2; 1; 0].

(** [update(s)] encodes the string as UTF-8. *)
Definition utf8_unit (c : ascii) : list N :=
  let n := N_of_ascii c in
  if n <? 128 then [n] else [192 + N.shiftr n 6; 128 + n mod 64].

Fixpoint utf8 (s : string) : list N :=
  match s with
  | EmptyString => []
  | String c r => utf8_unit c ++ utf8 r
  end.

(** [crypto.createHash('sha256').update(s).digest('hex')] *)
Definition sha256_hex (s : string) : string :=
  fold_right (fun w acc => append (hex_word w) acc) EmptyString (digest_words (utf8 s)).

End Sha256.

(** ** [JSON.stringify] of a device fingerprint *)

Module Json.

(** The client's device attributes: named string fields, in the order the
    object enumerates them. *)
Definition attrs : Type := list (string * string).

Definition quote_unit : ascii := ascii_of_nat 34.
Definition backslash : ascii := ascii_of_nat 92.

Definition hex_digit (n : nat) : ascii :=
  if (n <? 10)%nat then ascii_of_nat (48 + n) else ascii_of_nat (87 + n).

(** QuoteJSONString on one code unit. *)
Definition escape_unit (c : ascii) : string :=
  let n := nat_of_ascii c in
  if (n =? 34)%nat then String backslash (String quote_unit EmptyString)
  else if (n =? 92)%nat then String backslash (String backslash EmptyString)
  else if (n =? 8)%nat then String backslash "b"
  else if (n =? 9)%nat then String backslash "t"
  else if (n =? 10)%nat then String backslash "n"
  else if (n =? 12)%nat then String backslash "f"
  else if (n =? 13)%nat then String backslash "r"
  else if (n <? 32)%nat
       then String backslash
              (String "u" (String "0" (String "0"
                 (String (hex_digit (n / 16)) (String (hex_digit (n mod 16)) EmptyString)))))
  else String c EmptyString.

Fixpoint escape (s : string) : string :=
  match s with
  | EmptyString => EmptyString
  | String c r => escape_unit c ++ escape r
  end.

Definition quote (s : string) : string :=
  String quote_unit (escape s ++ String quote_unit EmptyString).

Definition member (kv : string * string) : string :=
  quote (fst kv) ++ ":" ++ quote (snd kv).

Fixpoint members (a : attrs) : string :=
  match a with
  | [] => EmptyString
  | [kv] => member kv
  | kv :: r => member kv ++ "," ++ members r
  end.

(** [JSON.stringify(obj)] *)
Definition stringify (a : attrs) : string := "{" ++ members a ++ "}".

(** The reading direction of [escape_unit], as [JSON.parse] has it: the
    code unit an escaped text starts with, and the text after it. *)
Definition hex_value (c : ascii) : nat :=
  let n := nat_of_ascii c in
  if (n <? 58)%nat then n - 48 else n - 87.

Definition unescape_head (s : string) : option (ascii * string) :=
  match s with
  | String c r =>
      if Ascii.eqb c backslash
      then match r with
           | String e r' =>
               if Ascii.eqb e quote_unit then Some (quote_unit, r')
               else if Ascii.eqb e backslash then Some (backslash, r')
               else if Ascii.eqb e "b" then Some (ascii_of_nat 8, r')
               else if Ascii.eqb e "t" then Some (ascii_of_nat 9, r')
               else if Ascii.eqb e "n" then Some (ascii_of_nat 10, r')
               else if Ascii.eqb e "f" then Some (ascii_of_nat 12, r')
               else if Ascii.eqb e "r" then Some (ascii_of_nat 13, r')
               else if Ascii.eqb e "u"
                    then match r' with
                         | String _ (String _ (String h (String l r''))) =>
                             Some (ascii_of_nat (16 * hex_value h + hex_value l), r'')
                         | _ => None
                         end
               else None
           | EmptyString => None
           end
      else Some (c, r)
  | EmptyString => None
  end.

(** [obj.key]: [undefined] when the object has no such field. *)
Fixpoint get (key : string) (a : attrs) : option string :=
  match a with
  | [] => None
  | (k, v) :: r => if String.eqb k key then Some v else get key r
  end.

End Json.

(** ** The collections *)

Definition ObjectId : Type := nat.
Definition Date : Type := nat.

(** [UserSchema] *)
Module User.
Inductive Status : Type := active | blocked.
Record t : Type := mk {
  _id : ObjectId;
  email : string;
  password : string;
  balance : JSNumber.number;
  createdAt : Date;
  updatedAt : Date;
  status : Status }.

Definition set_balance (u : t) (b : JSNumber.number) : t :=
  mk (_id u) (email u) (password u) b (createdAt u) (updatedAt u) (status u).
End User.

(** [DeviceSchema] *)
Module Device.
Inductive TrustStatus : Type := pending | trusted | restricted.

Record Info : Type := mkInfo {
  deviceId : option string;
  deviceModel : option string;
  platform : option string;
  osVersion : option string }.

Record t : Type := mk {
  _id : ObjectId;
  userId : ObjectId;
  fingerprint : string;
  deviceInfo : Info;
  isTrusted : bool;
  trustStatus : TrustStatus;
  riskScore : JSNumber.number;
  riskReason : option string;
  lastLogin : option Date;
  trustedDate : option Date;
  createdAt : Date }.

Definition is_trusted (s : TrustStatus) : bool :=
  match s with trusted => true | _ => false end.

(** The schema keeps the four declared fields of the submitted object. *)
Definition info_of (a : Json.attrs) : Info :=
  mkInfo (Json.get "deviceId" a) (Json.get "deviceModel" a)
         (Json.get "platform" a) (Json.get "osVersion" a).

Definition set_lastLogin (d : t) (now : Date) : t :=
  mk (_id d) (userId d) (fingerprint d) (deviceInfo d) (isTrusted d) (trustStatus d)
     (riskScore d) (riskReason d) (Some now) (trustedDate d) (createdAt d).

(** The five assignments of the trust request. *)
Definition set_trusted (d : t) (now : Date) (score : JSNumber.number) (reason : string) : t :=
  mk (_id d) (userId d) (fingerprint d) (deviceInfo d) true trusted
     score (Some reason) (lastLogin d) (Some now) (createdAt d).
End Device.

(** [TransactionSchema] *)
Module Transaction.
Inductive Status : Type := pending | completed | failed | blocked.

Record Fraud : Type := mkFraud {
  riskScore : JSNumber.number;
  alerts : list string;
  aiAnalysis : string }.

Record t : Type := mk {
  _id : ObjectId;
  senderId : ObjectId;
  recipientEmail : string;
  amount : JSNumber.number;
  purpose : option string;
  deviceFingerprint : string;
  status : Status;
  fraudDetection : Fraud;
  createdAt : Date;
  completedAt : option Date }.


Definition set_completed (x : t) (now : Date) : t :=
  mk (_id x) (senderId x) (recipientEmail x) (amount x) (purpose x)
     (deviceFingerprint x) completed (fraudDetection x) (createdAt x) (Some now).
End Transaction.

(** What is interpolated into the prompt sent to the scorer; an undefined
    field prints as [undefined]. *)
Inductive Prompt : Type :=
| DevicePrompt (model platform osVersion brand : option string) (total recent : nat)
| TransferPrompt (amount : JSNumber.number) (recipient : string)
                 (model platform : option string).

(** The database, the counter behind fresh [_id]s, and the requests made to
    the scorer so far (newest first). *)
Record World : Type := mkWorld {
  users : list User.t;
  devices : list Device.t;
  transactions : list Transaction.t;
  next_id : ObjectId;
  scorer_calls : list Prompt }.

Definition empty_world : World := mkWorld [] [] [] 0 [].

(** ** Handler code: state and exceptions *)

Inductive outcome (A : Type) : Type :=
| Returned (a : A)
| Thrown (message : string).
Arguments Returned {A} a.
Arguments Thrown {A} message.

Definition M (A : Type) : Type := World -> World * outcome A.

Definition ret {A : Type} (a : A) : M A := fun w => (w, Returned a).

Definition throw {A : Type} (message : string) : M A := fun w => (w, Thrown message).

Definition bind {A B : Type} (m : M A) (k : A -> M B) : M B :=
  fun w =>
    match m w with
    | (w', Returned a) => k a w'
    | (w', Thrown e) => (w', Thrown e)
    end.

Notation "x <- m ;; k" := (bind m (fun x => k))
  (at level 61, m at next level, right associativity).
Notation "m ;;; k" := (bind m (fun _ => k))
  (at level 61, right associativity).

(** [new Model(...)] draws a fresh [_id]. *)
Definition fresh_id : M ObjectId :=
  fun w => (mkWorld (users w) (devices w) (transactions w) (S (next_id w)) (scorer_calls w),
            Returned (next_id w)).

(** *** Queries *)

Definition User_findOne_email (e : string) : M (option User.t) :=
  fun w => (w, Returned (find (fun u => String.eqb (User.email u) e) (users w))).

Definition User_findById (id : ObjectId) : M (option User.t) :=
  fun w => (w, Returned (find (fun u => Nat.eqb (User._id u) id) (users w))).

(** [Device.findOne({ fingerprint })] *)
Definition Device_findOne_fingerprint (h : string) : M (option Device.t) :=
  fun w => (w, Returned (find (fun d => String.eqb (Device.fingerprint d) h) (devices w))).

(** [Device.findOne({ userId, fingerprint })] *)
Definition Device_findOne (uid : ObjectId) (h : string) : M (option Device.t) :=
  fun w => (w, Returned (find (fun d => Nat.eqb (Device.userId d) uid
                                        && String.eqb (Device.fingerprint d) h) (devices w))).

(** [Device.find({ userId, trustStatus: 'trusted' })] *)
Definition Device_find_trusted (uid : ObjectId) : M (list Device.t) :=
  fun w => (w, Returned (filter (fun d => Nat.eqb (Device.userId d) uid
                                         && Device.is_trusted (Device.trustStatus d)) (devices w))).

(** [Transaction.find({ senderId })] *)
Definition Transaction_find (uid : ObjectId) : M (list Transaction.t) :=
  fun w => (w, Returned (filter (fun x => Nat.eqb (Transaction.senderId x) uid) (transactions w))).

(** *** [save] *)

Definition duplicate_key : string := "E11000 duplicate key error".

Fixpoint replace {A : Type} (same : A -> bool) (x : A) (l : list A) : list A :=
  match l with
  | [] => []
  | y :: r => if same y then x :: r else y :: replace same x r
  end.

(** A document whose [_id] is in the collection is updated in place; a new
    one is inserted unless a unique index ([email]) refuses it. *)
Definition User_save (u : User.t) : M unit :=
  fun w =>
    let same := fun v => Nat.eqb (User._id v) (User._id u) in
    if existsb same (users w)
    then (mkWorld (replace same u (users w)) (devices w) (transactions w)
                  (next_id w) (scorer_calls w), Returned tt)
    else if existsb (fun v => String.eqb (User.email v) (User.email u)) (users w)
    then (w, Thrown duplicate_key)
    else (mkWorld (users w ++ [u]) (devices w) (transactions w)
                  (next_id w) (scorer_calls w), Returned tt).

(** The unique index of devices is on [fingerprint] alone. *)
Definition Device_save (d : Device.t) : M unit :=
  fun w =>
    let same := fun v => Nat.eqb (Device._id v) (Device._id d) in
    if existsb same (devices w)
    then (mkWorld (users w) (replace same d (devices w)) (transactions w)
                  (next_id w) (scorer_calls w), Returned tt)
    else if existsb (fun v => String.eqb (Device.fingerprint v) (Device.fingerprint d))
                    (devices w)
    then (w, Thrown duplicate_key)
    else (mkWorld (users w) (devices w ++ [d]) (transactions w)
                  (next_id w) (scorer_calls w), Returned tt).

Definition Transaction_save (x : Transaction.t) : M unit :=
  fun w =>
    let same := fun v => Nat.eqb (Transaction._id v) (Transaction._id x) in
    if existsb same (transactions w)
    then (mkWorld (users w) (devices w) (replace same x (transactions w))
                  (next_id w) (scorer_calls w), Returned tt)
    else (mkWorld (users w) (devices w) (transactions w ++ [x])
                  (next_id w) (scorer_calls w), Returned tt).

(** ** The fingerprint digest *)

(** [JSON.stringify(undefined)] is [undefined], which [update] refuses with
    a [TypeError]. *)
Definition update_undefined : string :=
  "The " ++ String Json.quote_unit "data" ++ String Json.quote_unit
  " argument must be of type string or an instance of Buffer, TypedArray, or DataView. Received undefined".

(** [crypto.createHash('sha256').update(JSON.stringify(deviceFingerprint)).digest('hex')],
    written out in registration, login, trust request and transfer alike. *)
Definition deviceHash (deviceFingerprint : Json.attrs) : string :=
  Sha256.sha256_hex (Json.stringify deviceFingerprint).

Definition deviceHash_opt (deviceFingerprint : option Json.attrs) : M string :=
  match deviceFingerprint with
  | Some a => ret (deviceHash a)
  | None => throw update_undefined
  end.

(** ** Collaborators *)

(** Password hashing and token issue, opaque to the handlers. *)
Record Auth : Type := mkAuth {
  hashPassword : string -> string;
  comparePassword : string -> string -> bool;
  generateToken : ObjectId -> string }.

(** A request is served with the credential service, the scorer's behaviour
    for this request ([None]: the call fails, or its reply carries no text)
    and the instant read by [new Date()]. *)
Record Env : Type := mkEnv {
  auth : Auth;
  scorer : Prompt -> option string;
  now : Date }.

Definition call_scorer (env : Env) (p : Prompt) : M (option string) :=
  fun w => (mkWorld (users w) (devices w) (transactions w) (next_id w) (p :: scorer_calls w),
            Returned (scorer env p)).

(** ** AI risk assessment *)

Definition LF : ascii := ascii_of_nat 10.

Definition threshold : JSNumber.number := JSNumber.Finite (8 # 10).
Definition zero : JSNumber.number := JSNumber.Finite 0.
Definition one : JSNumber.number := JSNumber.Finite 1.

(** [Math.min(1, Math.max(0, x))] *)
Definition clamp (x : JSNumber.number) : JSNumber.number :=
  JSNumber.Math_min one (JSNumber.Math_max zero x).

(** [parseFloat(field || d)]: [parseFloat] of the number [d] is [d]. *)
Definition parseFloat_or (field : option string) (d : JSNumber.number) : JSNumber.number :=
  match JSString.truthy field with
  | Some s => JSNumber.parseFloat s
  | None => d
  end.

Definition string_or (field : option string) (d : string) : string :=
  match JSString.truthy field with
  | Some s => s
  | None => d
  end.

(** [lines.find(l => l.includes(tag))?.split(':')[1]?.trim()] *)
Definition tagged_field (tag : string) (lines : list string) : option string :=
  JSString.field_after_colon (find (JSString.includes tag) lines).

Record RiskAssessment : Type := mkRisk {
  ra_riskScore : JSNumber.number;
  ra_reason : string }.

(** Lines 370-381 of [assessDeviceRisk]. *)
Definition parseDeviceRisk (result : string) : RiskAssessment :=
  let lines := JSString.split LF result in
  let riskScore := parseFloat_or (tagged_field "RISK_SCORE" lines) (JSNumber.Finite (5 # 10)) in
  let reason := string_or (tagged_field "REASON" lines) "Automated risk assessment" in
  mkRisk (clamp riskScore) reason.

(** The [catch] branch of [assessDeviceRisk]. *)
Definition deviceRisk_fallback : RiskAssessment :=
  mkRisk (JSNumber.Finite (6 # 10)) "Unable to perform AI risk assessment".

(** What [assessDeviceRisk] returns once the call to the scorer is over. *)
Definition risk_of_reply (reply : option string) : RiskAssessment :=
  match reply with
  | Some result => parseDeviceRisk result
  | None => deviceRisk_fallback
  end.

(** [transactions.slice(-10)] *)
Definition last10 {A : Type} (l : list A) : list A := skipn (List.length l - 10) l.

Definition assessDeviceRisk (env : Env) (deviceInfo : Json.attrs) (userId : ObjectId)
  : M RiskAssessment :=
  txs <- Transaction_find userId ;;
  r <- call_scorer env
         (DevicePrompt (Json.get "deviceModel" deviceInfo) (Json.get "platform" deviceInfo)
                       (Json.get "osVersion" deviceInfo) (Json.get "deviceBrand" deviceInfo)
                       (List.length txs) (List.length (last10 txs))) ;;
  ret (risk_of_reply r).

Record FraudAnalysis : Type := mkAnalysis {
  fa_riskScore : JSNumber.number;
  fa_alerts : list string;
  fa_analysis : string }.

(** Lines 514-532 of [performFraudDetection]. *)
Definition parseFraud (result : string) : FraudAnalysis :=
  let lines := JSString.split LF result in
  let riskScore := parseFloat_or (tagged_field "RISK_SCORE" lines) (JSNumber.Finite (3 # 10)) in
  let alerts :=
    match tagged_field "ALERTS" lines with
    | Some t => map JSString.trim (JSString.split "," t)
    | None => []
    end in
  let analysis := string_or (tagged_field "ANALYSIS" lines) "Normal" in
  mkAnalysis (clamp riskScore) alerts analysis.

(** The [catch] branch of [performFraudDetection]. *)
Definition fraud_fallback : FraudAnalysis :=
  mkAnalysis (JSNumber.Finite (4 # 10)) [] "Unable to perform AI analysis".

(** What [performFraudDetection] returns once the call to the scorer is over. *)
Definition fraud_of_reply (reply : option string) : FraudAnalysis :=
  match reply with
  | Some result => parseFraud result
  | None => fraud_fallback
  end.

Definition performFraudDetection (env : Env) (amount : JSNumber.number)
    (recipientEmail : string) (device : Device.Info) : M FraudAnalysis :=
  r <- call_scorer env
         (TransferPrompt amount recipientEmail (Device.deviceModel device)
                         (Device.platform device)) ;;
  ret (fraud_of_reply r).

(** ** Requests and responses *)

Module AuthBody.
Record t : Type := mk {
  email : option string;
  password : option string;
  deviceFingerprint : option Json.attrs }.
End AuthBody.

Module TrustBody.
Record t : Type := mk { deviceFingerprint : option Json.attrs }.
End TrustBody.

Module TransferBody.
Record t : Type := mk {
  recipientEmail : option string;
  amount : option JSNumber.number;
  purpose : option string;
  deviceFingerprint : option Json.attrs }.
End TransferBody.

Inductive Body : Type :=
| Message (message : string)
| Failure (message error : string)
| Registered (message : string) (id : ObjectId) (email token : string)
| LoggedIn (message : string) (id : ObjectId) (email : string)
           (balance : JSNumber.number) (token : string)
| DeviceStatus (isTrusted : bool) (reason : string) (riskScore : option JSNumber.number)
               (devices : list (option string * option string * option Date))
| TrustRejected (message reason : string)
| TransferResult (message : string) (transactionId : ObjectId)
                 (status : Transaction.Status) (fraudDetection : FraudAnalysis)
| History (transactions : list Transaction.t).

Record Response : Type := mkResponse { code : nat; body : Body }.

(** [!x] for a string that may be missing and for a number that may be. *)
Definition missing (o : option string) : bool :=
  match JSString.truthy o with None => true | Some _ => false end.

Definition missing_number (o : option JSNumber.number) : bool :=
  match o with None => true | Some n => JSNumber.falsy n end.

(** The [try { ... } catch (error)] around every handler. *)
Definition handle (failure : string) (m : M Response) (w : World) : World * Response :=
  match m w with
  | (w', Returned r) => (w', r)
  | (w', Thrown e) => (w', mkResponse 500 (Failure failure e))
  end.

(** ** The handlers *)

(** [POST /api/auth/register] *)
Definition register (env : Env) (req : AuthBody.t) : World -> World * Response :=
  handle "Registration failed"
    match JSString.truthy (AuthBody.email req), JSString.truthy (AuthBody.password req) with
    | Some email, Some password =>
        existingUser <- User_findOne_email email ;;
        match existingUser with
        | Some _ => ret (mkResponse 400 (Message "User already exists"))
        | None =>
            let hashedPassword := hashPassword (auth env) password in
            uid <- fresh_id ;;
            User_save (User.mk uid email hashedPassword (JSNumber.Finite 10000)
                               (now env) (now env) User.active) ;;;
            match AuthBody.deviceFingerprint req with
            | Some deviceFingerprint =>
                did <- fresh_id ;;
                Device_save (Device.mk did uid (deviceHash deviceFingerprint)
                                       (Device.info_of deviceFingerprint) false Device.pending
                                       (JSNumber.Finite (5 # 10)) None None None (now env))
            | None => ret tt
            end ;;;
            ret (mkResponse 201 (Registered "User registered successfully" uid email
                                            (generateToken (auth env) uid)))
        end
    | _, _ => ret (mkResponse 400 (Message "Email and password required"))
    end.

(** [POST /api/auth/login] *)
Definition login (env : Env) (req : AuthBody.t) : World -> World * Response :=
  handle "Login failed"
    match JSString.truthy (AuthBody.email req), JSString.truthy (AuthBody.password req) with
    | Some email, Some password =>
        found <- User_findOne_email email ;;
        match found with
        | None => ret (mkResponse 401 (Message "Invalid credentials"))
        | Some user =>
            if negb (comparePassword (auth env) password (User.password user))
            then ret (mkResponse 401 (Message "Invalid credentials"))
            else
              match AuthBody.deviceFingerprint req with
              | Some deviceFingerprint =>
                  existing <- Device_findOne_fingerprint (deviceHash deviceFingerprint) ;;
                  device <- match existing with
                            | Some d => ret d
                            | None =>
                                did <- fresh_id ;;
                                let d := Device.mk did (User._id user)
                                           (deviceHash deviceFingerprint)
                                           (Device.info_of deviceFingerprint) false
                                           Device.pending (JSNumber.Finite (7 # 10))
                                           (Some "New device detected") None None (now env) in
                                Device_save d ;;;
                                ret d
                            end ;;
                  Device_save (Device.set_lastLogin device (now env))
              | None => ret tt
              end ;;;
              ret (mkResponse 200 (LoggedIn "Login successful" (User._id user)
                                            (User.email user) (User.balance user)
                                            (generateToken (auth env) (User._id user))))
        end
    | _, _ => ret (mkResponse 400 (Message "Email and password required"))
    end.

(** [GET /api/devices/status]: the query string is hashed as it comes. *)
Definition deviceStatus (userId : ObjectId) (fingerprint : option string)
  : World -> World * Response :=
  handle "Failed to get device status"
    match JSString.truthy fingerprint with
    | None => ret (mkResponse 400 (Message "Fingerprint required"))
    | Some fp =>
        found <- Device_findOne userId (Sha256.sha256_hex fp) ;;
        match found with
        | None =>
            ret (mkResponse 200 (DeviceStatus false "Device not found in trusted list" None []))
        | Some device =>
            trustedDevices <- Device_find_trusted userId ;;
            ret (mkResponse 200
                   (DeviceStatus (Device.is_trusted (Device.trustStatus device))
                      (string_or (Device.riskReason device) "")
                      (Some (Device.riskScore device))
                      (map (fun d => (Device.deviceModel (Device.deviceInfo d),
                                      Device.platform (Device.deviceInfo d),
                                      Device.trustedDate d)) trustedDevices)))
        end
    end.

(** [POST /api/devices/trust] *)
Definition trustDevice (env : Env) (userId : ObjectId) (req : TrustBody.t)
  : World -> World * Response :=
  handle "Failed to trust device"
    match TrustBody.deviceFingerprint req with
    | None => ret (mkResponse 400 (Message "Device fingerprint required"))
    | Some deviceFingerprint =>
        found <- Device_findOne userId (deviceHash deviceFingerprint) ;;
        match found with
        | None => ret (mkResponse 404 (Message "Device not found"))
        | Some device =>
            riskAssessment <- assessDeviceRisk env deviceFingerprint userId ;;
            if JSNumber.gt (ra_riskScore riskAssessment) threshold
            then ret (mkResponse 400
                        (TrustRejected "Device cannot be trusted due to high risk score"
                                       (ra_reason riskAssessment)))
            else
              Device_save (Device.set_trusted device (now env)
                             (ra_riskScore riskAssessment) (ra_reason riskAssessment)) ;;;
              ret (mkResponse 200 (Message "Device trusted successfully"))
        end
    end.

(** [POST /api/transfers/create] *)
Definition createTransfer (env : Env) (userId : ObjectId) (req : TransferBody.t)
  : World -> World * Response :=
  handle "Transfer failed"
    match JSString.truthy (TransferBody.recipientEmail req), TransferBody.amount req with
    | Some recipientEmail, Some amount =>
        if JSNumber.falsy amount
        then ret (mkResponse 400 (Message "Recipient and amount required"))
        else if JSNumber.le amount zero
        then ret (mkResponse 400 (Message "Amount must be positive"))
        else
          hash <- deviceHash_opt (TransferBody.deviceFingerprint req) ;;
          found <- Device_findOne userId hash ;;
          match found with
          | None => ret (mkResponse 403 (Message "Device not trusted for transfers"))
          | Some device =>
              if negb (Device.is_trusted (Device.trustStatus device))
              then ret (mkResponse 403 (Message "Device not trusted for transfers"))
              else
                account <- User_findById userId ;;
                match account with
                | None => ret (mkResponse 404 (Message "User not found"))
                | Some user =>
                    if JSNumber.lt (User.balance user) amount
                    then ret (mkResponse 400 (Message "Insufficient balance"))
                    else
                      fraudAnalysis <- performFraudDetection env amount recipientEmail
                                         (Device.deviceInfo device) ;;
                      tid <- fresh_id ;;
                      let transaction :=
                        Transaction.mk tid userId recipientEmail amount
                          (TransferBody.purpose req) hash
                          (if JSNumber.gt (fa_riskScore fraudAnalysis) threshold
                           then Transaction.blocked else Transaction.pending)
                          (Transaction.mkFraud (fa_riskScore fraudAnalysis)
                             (fa_alerts fraudAnalysis) (fa_analysis fraudAnalysis))
                          (now env) None in
                      saved <- (if JSNumber.le (fa_riskScore fraudAnalysis) threshold
                                then
                                  User_save (User.set_balance user
                                               (JSNumber.sub (User.balance user) amount)) ;;;
                                  ret (Transaction.set_completed transaction (now env))
                                else ret transaction) ;;
                      Transaction_save saved ;;;
                      ret (mkResponse 200
                             (TransferResult
                                (match Transaction.status saved with
                                 | Transaction.completed => "Transfer completed"
                                 | _ => "Transfer blocked due to fraud detection"
                                 end)
                                (Transaction._id saved) (Transaction.status saved)
                                fraudAnalysis))
                end
          end
    | _, _ => ret (mkResponse 400 (Message "Recipient and amount required"))
    end.

(** [.sort({ createdAt: -1 })] *)
Fixpoint insert_newest (x : Transaction.t) (l : list Transaction.t) : list Transaction.t :=
  match l with
  | [] => [x]
  | y :: r =>
      if (Transaction.createdAt y <? Transaction.createdAt x)%nat
      then x :: l else y :: insert_newest x r
  end.

Definition newest_first (l : list Transaction.t) : list Transaction.t :=
  fold_left (fun acc x => insert_newest x acc) l [].

(** [GET /api/transfers/history] *)
Definition history (userId : ObjectId) : World -> World * Response :=
  handle "Failed to get history"
    (txs <- Transaction_find userId ;;
     ret (mkResponse 200 (History (newest_first txs)))).

(** ** The server: one request at a time *)

(** A request as the handlers see it: past [verifyToken], the protected
    routes carry the user id the token was issued for. *)
Inductive Request : Type :=
| Register (req : AuthBody.t)
| Login (req : AuthBody.t)
| GetDeviceStatus (userId : ObjectId) (fingerprint : option string)
| TrustDevice (userId : ObjectId) (req : TrustBody.t)
| CreateTransfer (userId : ObjectId) (req : TransferBody.t)
| GetHistory (userId : ObjectId).

Definition serve (env : Env) (r : Request) : World -> World * Response :=
  match r with
  | Register req => register env req
  | Login req => login env req
  | GetDeviceStatus userId fingerprint => deviceStatus userId fingerprint
  | TrustDevice userId req => trustDevice env userId req
  | CreateTransfer userId req => createTransfer env userId req
  | GetHistory userId => history userId
  end.

(** The states the server can be in: started on an empty database, it has
    served any requests, each with any behaviour of the collaborators. *)
Inductive reachable : World -> Prop :=
| reachable_start : reachable empty_world
| reachable_serve (env : Env) (r : Request) (w : World) :
    reachable w -> reachable (fst (serve env r w)).

(** ** Sample data, from the repository's API examples *)

Module Sample.

Definition auth : Auth :=
  mkAuth (fun p => "bcrypt:" ++ p)
         (fun p h => String.eqb ("bcrypt:" ++ p) h)
         (fun _ => "jwt").

(** The scorer answers every request with the same text, or fails. *)
Definition env_answer (text : string) : Env := mkEnv auth (fun _ => Some text) 7.
Definition env_down : Env := mkEnv auth (fun _ => None) 7.

Definition iphone : Json.attrs :=
  [ ("deviceId", "device_iphone_14_001"); ("deviceBrand", "Apple");
    ("deviceModel", "iPhone 14"); ("osVersion", "17.0"); ("appVersion", "1.0.0");
    ("buildId", "build_001"); ("platform", "ios"); ("manufacturer", "Apple") ].

(** The same fields, the last two exchanged. *)
Definition iphone_reordered : Json.attrs :=
  [ ("deviceId", "device_iphone_14_001"); ("deviceBrand", "Apple");
    ("deviceModel", "iPhone 14"); ("osVersion", "17.0"); ("appVersion", "1.0.0");
    ("buildId", "build_001"); ("manufacturer", "Apple"); ("platform", "ios") ].

Definition john : AuthBody.t :=
  AuthBody.mk (Some "john.doe@example.com") (Some "SecurePassword123!") (Some iphone).

Definition jane : AuthBody.t :=
  AuthBody.mk (Some "jane.smith@example.com") (Some "Password456!") None.

Definition jane_on_johns_phone : AuthBody.t :=
  AuthBody.mk (Some "jane.smith@example.com") (Some "Password456!") (Some iphone).

Definition transfer (amount : Q) : TransferBody.t :=
  TransferBody.mk (Some "jane.smith@example.com") (Some (JSNumber.Finite amount))
                  (Some "Payment for consulting services") (Some iphone).

Definition low_risk : string :=
  "RISK_SCORE: 0.2" ++ String LF "REASON: Known device".

Definition fraud_reply (score : string) : string :=
  "RISK_SCORE: " ++ score ++ String LF ("ALERTS: none" ++ String LF "ANALYSIS: ok").

(** John has registered on his phone. *)
Definition registered : World := fst (register (env_answer "") john empty_world).

(** ... and had the phone trusted. *)
Definition trusting : World :=
  fst (trustDevice (env_answer low_risk) 0 (TrustBody.mk (Some iphone)) registered).

(** Jane has registered too, without a device. *)
Definition two_accounts : World := fst (register env_down jane registered).

(** The requests served later, at instant 9. *)
Definition env_later : Env := mkEnv auth (fun _ => None) 9.

(** John has sent 50 to Jane on a low score. *)
Definition after_transfer : World :=
  fst (createTransfer (env_answer (fraud_reply "0.3")) 0 (transfer 50) trusting).

(** A reply whose score is a word. *)
Definition unparsed : string := fraud_reply "high".

Definition unparsed_device : string :=
  "RISK_SCORE: high" ++ String LF "REASON: Unknown device".

End Sample.



(** ** Predicates of the statements *)

(** Lines 398-404: the request carries a recipient and a positive amount. *)
Definition validated (req : TransferBody.t) : bool :=
  negb (missing (TransferBody.recipientEmail req))
  && negb (missing_number (TransferBody.amount req))
  && match TransferBody.amount req with
     | Some a => negb (JSNumber.le a zero)
     | None => false
     end.

(** [0 <= x && x <= 1] *)
Definition in_unit_interval (x : JSNumber.number) : bool :=
  JSNumber.le zero x && JSNumber.le x one.

(** Every [_id] in the database was drawn from the counter. *)
Definition fresh_ids (w : World) : Prop :=
  (forall u, In u (users w) -> User._id u < next_id w)
  /\ (forall d, In d (devices w) -> Device._id d < next_id w)
  /\ (forall x, In x (transactions w) -> Transaction._id x < next_id w).

(** No two device documents share an [_id], none share a fingerprint. *)
Definition unique_devices (l : list Device.t) : Prop :=
  NoDup (map Device._id l) /\ NoDup (map Device.fingerprint l).

Definition initial_balance : JSNumber.number := JSNumber.Finite 10000.

(** Every balance is a finite number, at most the initial one. *)
Definition bounded (b : JSNumber.number) : Prop :=
  exists q, b = JSNumber.Finite q /\ (q <= 10000)%Q.

Definition balances_bounded (w : World) : Prop :=
  forall u, In u (users w) -> bounded (User.balance u).

(** ** The token middleware *)

(** [req.headers.authorization?.split(' ')[1]] *)
Definition header_token (authorization : option string) : option string :=
  match authorization with
  | None => None
  | Some header => nth_error (JSString.split " " header) 1
  end.

(** [verifyToken], lines 103-116: [jwt_verify] is [jwt.verify] with the
    server's secret, [None] when it throws; [next] is the handler of the
    route, given [req.userId]. *)
Definition verifyToken (jwt_verify : string -> option ObjectId)
    (authorization : option string) (next : ObjectId -> World -> World * Response)
    (w : World) : World * Response :=
  match JSString.truthy (header_token authorization) with
  | None => (w, mkResponse 401 (Message "No token provided"))
  | Some token =>
      match jwt_verify token with
      | Some userId => next userId w
      | None => (w, mkResponse 401 (Message "Invalid token"))
      end
  end.

(** ** Further predicates of the statements *)

(** The code unit [c] does not occur in [s]. *)
Fixpoint without (c : ascii) (s : string) : bool :=
  match s with
  | EmptyString => true
  | String x r => negb (Ascii.eqb x c) && without c r
  end.

(** Line 417: the device gate of a transfer. *)
Definition eligible (userId : ObjectId) (fp : Json.attrs) (w : World) : bool :=
  match find (fun d => Nat.eqb (Device.userId d) userId
                       && String.eqb (Device.fingerprint d) (deviceHash fp)) (devices w) with
  | Some device => Device.is_trusted (Device.trustStatus device)
  | None => false
  end.

(** No two accounts share an [_id], none share an email. *)
Definition unique_users (l : list User.t) : Prop :=
  NoDup (map User._id l) /\ NoDup (map User.email l).

(** What a Transfer took from its sender: its amount when it is completed. *)
Definition sent (t : Transaction.t) : Q :=
  match Transaction.status t, Transaction.amount t with
  | Transaction.completed, JSNumber.Finite q => q
  | _, _ => 0%Q
  end.

Fixpoint total_sent (userId : ObjectId) (l : list Transaction.t) : Q :=
  match l with
  | [] => 0%Q
  | t :: r =>
      if Nat.eqb (Transaction.senderId t) userId
      then (sent t + total_sent userId r)%Q
      else total_sent userId r
  end.

(** The balance of every account is the initial balance less what its
    completed Transfers took. *)
Definition ledger_balanced (w : World) : Prop :=
  forall u, In u (users w) ->
    exists q, User.balance u = JSNumber.Finite q
              /\ (q == 10000 - total_sent (User._id u) (transactions w))%Q.

(** Every Transfer names an account as its sender. *)
Definition senders_known (w : World) : Prop :=
  forall t, In t (transactions w) ->
    exists u, In u (users w) /\ User._id u = Transaction.senderId t.

(** The status of a Transfer, its stored score and [completedAt] agree, and
    its amount is a positive number. *)
Definition consistent (t : Transaction.t) : Prop :=
  let score := Transaction.riskScore (Transaction.fraudDetection t) in
  match Transaction.status t with
  | Transaction.blocked =>
      JSNumber.gt score threshold = true /\ Transaction.completedAt t = None
  | Transaction.completed =>
      JSNumber.le score threshold = true /\ Transaction.completedAt t <> None
  | Transaction.pending => score = JSNumber.NaN /\ Transaction.completedAt t = None
  | Transaction.failed => False
  end
  /\ (score = JSNumber.NaN \/ in_unit_interval score = true)
  /\ JSNumber.gt (Transaction.amount t) zero = true.

(** Every balance is a number that is not negative. *)
Definition balances_nonnegative (w : World) : Prop :=
  forall u, In u (users w) ->
    exists q, User.balance u = JSNumber.Finite q /\ (0 <= q)%Q.

(** The Transfer was made from a device of its sender that is trusted. *)
Definition from_trusted_device (w : World) (t : Transaction.t) : Prop :=
  exists d, In d (devices w)
            /\ Device.userId d = Transaction.senderId t
            /\ Device.fingerprint d = Transaction.deviceFingerprint t
            /\ Device.trustStatus d = Device.trusted.

(** [d'] is the device document [d] at a later time: what identifies the
    device is the same, and it is trusted if [d] was. *)
Definition same_device (d d' : Device.t) : Prop :=
  Device._id d' = Device._id d
  /\ Device.userId d' = Device.userId d
  /\ Device.fingerprint d' = Device.fingerprint d
  /\ Device.deviceInfo d' = Device.deviceInfo d
  /\ Device.createdAt d' = Device.createdAt d
  /\ (Device.trustStatus d = Device.trusted -> Device.trustStatus d' = Device.trusted).

(** [u'] is the account [u] at a later time: what identifies it and what
    logs into it are the same. *)
Definition same_account (u u' : User.t) : Prop :=
  User._id u' = User._id u
  /\ User.email u' = User.email u
  /\ User.password u' = User.password u.

(** [.sort({ createdAt: -1 })]: no Transfer comes before a newer one. *)
Definition newest_come_first (l : list Transaction.t) : Prop :=
  StronglySorted (fun a b => Transaction.createdAt b <= Transaction.createdAt a) l.

(** The state of the server once it has served the requests of [trace] in
    turn, each with its own behaviour of the collaborators. *)
Definition serve_all (trace : list (Env * Request)) (w : World) : World :=
  fold_left (fun w' step => fst (serve (fst step) (snd step) w')) trace w.

(** ** JavaScript numbers: comparisons and the clamp *)

Section Numbers.

Import JSNumber.

Lemma Qlt_bool_iff (x y : Q) : Qlt_bool x y = true <-> (x < y)%Q.
Proof.
  unfold Qlt_bool. rewrite negb_true_iff.
  split; intros H.
  - apply Qnot_le_lt. intros Hle. apply Qle_bool_iff in Hle. congruence.
  - destruct (Qle_bool y x) eqn:E; [|reflexivity].
    apply Qle_bool_iff in E. exfalso. apply (Qlt_not_le _ _ H E).
Qed.

Lemma Qlt_bool_false (x y : Q) : Qlt_bool x y = false <-> (y <= x)%Q.
Proof.
  unfold Qlt_bool. rewrite negb_false_iff. apply Qle_bool_iff.
Qed.

(** A comparison with [NaN] is false either way. *)
Lemma gt_le_NaN (t : number) : gt NaN t = false /\ le NaN t = false.
Proof. split; destruct t; reflexivity. Qed.

(** For a number, [x > t] and [x <= t] are complementary. *)
Lemma gt_le_complement (x t : Q) : gt (Finite x) (Finite t) = negb (le (Finite x) (Finite t)).
Proof. unfold gt, le. simpl. now rewrite negb_involutive. Qed.

(** The three ways a score compares with the threshold. *)
Lemma threshold_cases (x : number) :
  (gt x threshold = true /\ le x threshold = false)
  \/ (gt x threshold = false /\ le x threshold = true)
  \/ (x = NaN /\ gt x threshold = false /\ le x threshold = false).
Proof.
  destruct x as [| | |q].
  - right; right. repeat split.
  - right; left. split; reflexivity.
  - left. split; reflexivity.
  - unfold threshold. rewrite gt_le_complement.
    destruct (le (Finite q) (Finite (8 # 10))); [right; left | left]; split; reflexivity.
Qed.

(** The clamp lets [NaN] through and brings every number into [0, 1]. *)
Lemma clamp_NaN : clamp NaN = NaN.
Proof. reflexivity. Qed.

Lemma clamp_number (x : number) : x <> NaN -> in_unit_interval (clamp x) = true.
Proof.
  intros Hx. destruct x as [| | |q]; [congruence | reflexivity | reflexivity |].
  unfold clamp, Math_max, Math_min, zero, one, in_unit_interval. simpl.
  destruct (Qlt_bool 0 q) eqn:E0; simpl.
  - destruct (Qlt_bool q 1) eqn:E1; simpl.
    + unfold le. simpl.
      apply Qlt_bool_iff in E0. apply Qlt_bool_iff in E1.
      assert (Qlt_bool q 0 = false) as -> by (apply Qlt_bool_false; lra).
      assert (Qlt_bool 1 q = false) as -> by (apply Qlt_bool_false; lra).
      reflexivity.
    + reflexivity.
  - reflexivity.
Qed.

Lemma clamp_isNaN (x : number) : clamp x = NaN <-> x = NaN.
Proof.
  split; [|intros ->; reflexivity].
  intros H. destruct x as [| | |q]; try reflexivity; try discriminate.
  exfalso. assert (Hq : Finite q <> NaN) by discriminate.
  apply clamp_number in Hq. rewrite H in Hq. discriminate.
Qed.

End Numbers.

(** ** Running handler code *)

Ltac run :=
  cbv beta iota zeta delta
    [handle bind ret throw fresh_id deviceHash_opt call_scorer
     User_findOne_email User_findById Device_findOne_fingerprint Device_findOne
     Device_find_trusted Transaction_find];
  cbn [users devices transactions next_id scorer_calls fst snd].

Lemma validated_inv (req : TransferBody.t) :
  validated req = true ->
  exists recipient amount,
    JSString.truthy (TransferBody.recipientEmail req) = Some recipient
    /\ TransferBody.amount req = Some amount
    /\ JSNumber.falsy amount = false
    /\ JSNumber.le amount zero = false.
Proof.
  unfold validated, missing, missing_number. intros H.
  destruct (JSString.truthy (TransferBody.recipientEmail req)) as [r|]; [|discriminate].
  destruct (TransferBody.amount req) as [a|]; [|discriminate].
  simpl in H. apply andb_prop in H as [H1 H2].
  exists r, a. repeat split; [now apply negb_true_iff | now apply negb_true_iff].
Qed.

(** *** Lists of documents *)

Lemma In_replace {A : Type} (same : A -> bool) (x y : A) (l : list A) :
  In y (replace same x l) -> In y l \/ y = x.
Proof.
  induction l as [|z l IH]; simpl; [tauto|].
  destruct (same z); simpl; intros [H|H]; auto.
  destruct (IH H); auto.
Qed.

Lemma replace_keeps {A : Type} (same : A -> bool) (x y : A) (l : list A) :
  In y l -> same y = false -> In y (replace same x l).
Proof.
  induction l as [|z l IH]; simpl; [tauto|].
  intros [->|H] Hy.
  - rewrite Hy. now left.
  - destruct (same z); simpl; auto.
Qed.

Lemma existsb_found {A : Type} (p : A -> bool) (l : list A) (x : A) :
  find p l = Some x -> existsb p l = true.
Proof.
  intros H. apply find_some in H as [Hin Hp].
  apply existsb_exists. now exists x.
Qed.

Lemma existsb_not_found {A : Type} (p : A -> bool) (l : list A) :
  find p l = None -> existsb p l = false.
Proof.
  intros H. destruct (existsb p l) eqn:E; [|reflexivity].
  apply existsb_exists in E as (x & Hin & Hp).
  now rewrite (find_none _ _ H x Hin) in Hp.
Qed.

Lemma existsb_fresh {A : Type} (id : A -> nat) (n : nat) (l : list A) :
  (forall x, In x l -> id x < n) -> existsb (fun v => Nat.eqb (id v) n) l = false.
Proof.
  intros H. destruct (existsb _ l) eqn:E; [|reflexivity].
  apply existsb_exists in E as (x & Hin & Hx).
  apply Nat.eqb_eq in Hx. specialize (H x Hin). lia.
Qed.

(** ** A transfer request that passes the three gates *)

Section PassingTransfer.

Variables (env : Env) (userId : ObjectId) (req : TransferBody.t) (w : World).
Variables (recipient : string) (amount : JSNumber.number) (fp : Json.attrs).
Variables (device : Device.t) (user : User.t).

Hypothesis Hrecipient : JSString.truthy (TransferBody.recipientEmail req) = Some recipient.
Hypothesis Hamount : TransferBody.amount req = Some amount.
Hypothesis Hvalid : validated req = true.
Hypothesis Hfp : TransferBody.deviceFingerprint req = Some fp.
Hypothesis Hdevice :
  find (fun d => Nat.eqb (Device.userId d) userId
                 && String.eqb (Device.fingerprint d) (deviceHash fp)) (devices w)
    = Some device.
Hypothesis Htrusted : Device.trustStatus device = Device.trusted.
Hypothesis Huser : find (fun u => Nat.eqb (User._id u) userId) (users w) = Some user.
Hypothesis Hfunds : JSNumber.lt (User.balance user) amount = false.
Hypothesis Hfresh : fresh_ids w.

(** The request sent to the scorer, and what the assessment makes of the
    answer. *)
Local Abbreviation prompt :=
  (TransferPrompt amount recipient (Device.deviceModel (Device.deviceInfo device))
                  (Device.platform (Device.deviceInfo device))).

Local Abbreviation analysis := (fraud_of_reply (scorer env prompt)).

(** The Transfer document built at lines 440-452, with the given status. *)
Local Abbreviation transaction status completedAt :=
  (Transaction.mk (next_id w) userId recipient amount (TransferBody.purpose req)
     (deviceHash fp) status
     (Transaction.mkFraud (fa_riskScore analysis) (fa_alerts analysis) (fa_analysis analysis))
     (now env) completedAt).

Lemma performFraudDetection_returns :
  performFraudDetection env amount recipient (Device.deviceInfo device) w
  = (mkWorld (users w) (devices w) (transactions w) (next_id w) (prompt :: scorer_calls w),
     Returned analysis).
Proof. reflexivity. Qed.

Lemma user_found_by_own_id :
  find (fun v => Nat.eqb (User._id v) (User._id user)) (users w) = Some user.
Proof.
  destruct (find_some _ _ Huser) as [_ Hid]. apply Nat.eqb_eq in Hid.
  rewrite Hid. exact Huser.
Qed.

(** Lines 396-437: nothing is written before the assessment returns. *)
Ltac pass_gates :=
  let r := fresh "r" in
  let a := fresh "a" in
  let Hr := fresh "Hr" in
  let Ha := fresh "Ha" in
  let Hf := fresh "Hf" in
  let Hle := fresh "Hle" in
  match goal with
  | Hvalid : validated ?req = true,
    Hrecipient : JSString.truthy (TransferBody.recipientEmail ?req) = Some _,
    Hamount : TransferBody.amount ?req = Some _,
    Hfp : TransferBody.deviceFingerprint ?req = Some _,
    Hdevice : find _ (devices ?w) = Some ?device,
    Htrusted : Device.trustStatus ?device = Device.trusted,
    Huser : find _ (users ?w) = Some _ |- _ =>
      destruct (validated_inv req Hvalid) as (r & a & Hr & Ha & Hf & Hle);
      rewrite Hrecipient in Hr; injection Hr as <-;
      rewrite Hamount in Ha; injection Ha as <-;
      unfold createTransfer; rewrite Hrecipient, Hamount, Hf, Hle, Hfp; run;
      rewrite Hdevice, Htrusted; cbn [Device.is_trusted negb]; run; rewrite Huser
  end.


(** Lines 440-470 with the score at most the threshold. *)
Lemma transfer_completed :
  JSNumber.le (fa_riskScore analysis) threshold = true ->
  createTransfer env userId req w
  = (mkWorld (replace (fun v => Nat.eqb (User._id v) (User._id user))
                      (User.set_balance user (JSNumber.sub (User.balance user) amount))
                      (users w))
             (devices w)
             (transactions w ++ [transaction Transaction.completed (Some (now env))])
             (S (next_id w)) (prompt :: scorer_calls w),
     mkResponse 200 (TransferResult "Transfer completed" (next_id w)
                                    Transaction.completed analysis)).
Proof.
  intros Hle.
  destruct (threshold_cases (fa_riskScore analysis)) as [[_ Hn]|[[Hn _]|(_ & _ & Hn)]];
    try congruence.
  pass_gates. rewrite Hfunds, performFraudDetection_returns. run. rewrite Hn, Hle. run.
  unfold User_save. cbn [transactions users devices next_id scorer_calls User._id User.set_balance].
  rewrite (existsb_found _ _ _ user_found_by_own_id).
  run. unfold Transaction_save.
  cbn [transactions users devices next_id scorer_calls Transaction._id Transaction.set_completed].
  rewrite (existsb_fresh Transaction._id (next_id w) (transactions w)) by apply Hfresh.
  reflexivity.
Qed.

(** Lines 440-470 with a score that is not a number: neither comparison
    holds, and the document is saved as it was built. *)
Lemma transfer_left_pending :
  fa_riskScore analysis = JSNumber.NaN ->
  createTransfer env userId req w
  = (mkWorld (users w) (devices w)
             (transactions w ++ [transaction Transaction.pending None])
             (S (next_id w)) (prompt :: scorer_calls w),
     mkResponse 200 (TransferResult "Transfer blocked due to fraud detection" (next_id w)
                                    Transaction.pending analysis)).
Proof.
  intros HNaN.
  assert (Hgt : JSNumber.gt (fa_riskScore analysis) threshold = false)
    by (rewrite HNaN; reflexivity).
  assert (Hle : JSNumber.le (fa_riskScore analysis) threshold = false)
    by (rewrite HNaN; reflexivity).
  pass_gates. rewrite Hfunds, performFraudDetection_returns. run. rewrite Hgt, Hle. run.
  unfold Transaction_save. cbn [transactions users devices next_id scorer_calls Transaction._id].
  rewrite (existsb_fresh Transaction._id (next_id w) (transactions w)) by apply Hfresh.
  reflexivity.
Qed.

End PassingTransfer.

(** ** Invariants of the reachable states *)

(** Unfold a handler down to the worlds it can end in. *)
Ltac run_all :=
  cbv beta iota zeta delta
    [handle bind ret throw fresh_id deviceHash_opt call_scorer
     User_findOne_email User_findById Device_findOne_fingerprint Device_findOne
     Device_find_trusted Transaction_find performFraudDetection assessDeviceRisk
     User_save Device_save Transaction_save];
  cbn [users devices transactions next_id scorer_calls fst snd].

(** A term that is not itself built on a case analysis. *)
Ltac plain_scrutinee t :=
  lazymatch t with
  | context [match _ with _ => _ end] => fail
  | _ => idtac
  end.

Ltac split_case :=
  match goal with
  | |- context [match ?scrutinee with _ => _ end] =>
      plain_scrutinee scrutinee;
      let E := fresh "E" in
      destruct scrutinee eqn:E;
      cbv beta iota;
      cbn [users devices transactions next_id scorer_calls fst snd]
  end.

Ltac split_cases := repeat split_case.

Ltac members :=
  repeat match goal with
         | H : In _ (_ ++ _) |- _ => apply in_app_or in H; destruct H as [H|H]
         | H : In _ [_] |- _ => destruct H as [H|[]]; subst
         | H : In _ (replace _ _ _) |- _ => apply In_replace in H; destruct H as [H|H]; subst
         | H : find _ _ = Some _ |- _ => apply find_some in H; destruct H
         end.

Lemma fresh_ids_serve (env : Env) (r : Request) (w : World) :
  fresh_ids w -> fresh_ids (fst (serve env r w)).
Proof.
  intros (Hu & Hd & Ht).
  assert (Hu' : forall u, In u (users w) -> User._id u < S (next_id w))
    by (intros u Hin; specialize (Hu u Hin); lia).
  assert (Hd' : forall d, In d (devices w) -> Device._id d < S (next_id w))
    by (intros d Hin; specialize (Hd d Hin); lia).
  assert (Ht' : forall x, In x (transactions w) -> Transaction._id x < S (next_id w))
    by (intros x Hin; specialize (Ht x Hin); lia).
  assert (Hu'' : forall u, In u (users w) -> User._id u < S (S (next_id w)))
    by (intros u Hin; specialize (Hu u Hin); lia).
  assert (Hd'' : forall d, In d (devices w) -> Device._id d < S (S (next_id w)))
    by (intros d Hin; specialize (Hd d Hin); lia).
  assert (Ht'' : forall x, In x (transactions w) -> Transaction._id x < S (S (next_id w)))
    by (intros x Hin; specialize (Ht x Hin); lia).
  destruct r; cbn [serve];
    unfold register, login, deviceStatus, trustDevice, createTransfer, history;
    run_all; split_cases;
    (split; [|split]); cbn [users devices transactions next_id];
    intros z Hz; members;
    cbn [User._id Device._id Transaction._id User.set_balance Device.set_lastLogin
         Device.set_trusted Transaction.set_completed];
    auto; try lia.
Qed.

Lemma reachable_fresh_ids (w : World) : reachable w -> fresh_ids w.
Proof.
  induction 1 as [|env r w _ IH].
  - repeat split; intros ? [].
  - now apply fresh_ids_serve.
Qed.

Lemma bounded_initial : bounded initial_balance.
Proof. exists 10000%Q. split; [reflexivity | apply Qle_refl]. Qed.

(** The debit of line 456, under the checks of lines 398-404 and 427. *)
Lemma debit_bounded (b a : JSNumber.number) :
  bounded b ->
  JSNumber.falsy a = false ->
  JSNumber.le a zero = false ->
  JSNumber.lt b a = false ->
  bounded (JSNumber.sub b a) /\ JSNumber.le (JSNumber.sub b a) b = true.
Proof.
  intros (q & -> & Hq) Hf Hle Hlt.
  destruct a as [| | |qa]; try discriminate.
  unfold JSNumber.le, zero in Hle. cbn in Hle.
  apply negb_false_iff, Qlt_bool_iff in Hle.
  split.
  - exists (q - qa)%Q. split; [reflexivity | lra].
  - unfold JSNumber.le. cbn. apply negb_true_iff, Qlt_bool_false. lra.
Qed.

Lemma balances_bounded_serve (env : Env) (r : Request) (w : World) :
  balances_bounded w -> balances_bounded (fst (serve env r w)).
Proof.
  intros Hb.
  destruct r; cbn [serve];
    unfold register, login, deviceStatus, trustDevice, createTransfer, history;
    run_all; split_cases;
    unfold balances_bounded; cbn [users devices transactions next_id];
    intros z Hz; members;
    cbn [User.balance User.set_balance];
    auto using bounded_initial.
  all: match goal with
       | |- bounded (JSNumber.sub (User.balance ?u) ?a) =>
           apply debit_bounded; auto
       end.
Qed.

Lemma reachable_balances_bounded (w : World) : reachable w -> balances_bounded w.
Proof.
  induction 1 as [|env r w _ IH].
  - intros ? [].
  - now apply balances_bounded_serve.
Qed.

(** *** Device documents stay unique by [_id] and by fingerprint *)

Lemma NoDup_map_eq {A B : Type} (f : A -> B) (l : list A) (a b : A) :
  NoDup (map f l) -> In a l -> In b l -> f a = f b -> a = b.
Proof.
  induction l as [|z l IH]; simpl; [tauto|].
  intros Hnd Ha Hb Hf. inversion Hnd as [|? ? Hz Hl]; subst.
  destruct Ha as [->|Ha], Hb as [->|Hb]; auto.
  - exfalso. apply Hz. rewrite Hf. now apply in_map.
  - exfalso. apply Hz. rewrite <- Hf. now apply in_map.
Qed.

(** Updating a document in place changes no field that the update keeps. *)
Lemma map_replace {A B : Type} (id : A -> nat) (f : A -> B) (x : A) (l : list A) :
  (forall v, In v l -> id v = id x -> f v = f x) ->
  map f (replace (fun v => Nat.eqb (id v) (id x)) x l) = map f l.
Proof.
  induction l as [|z l IH]; simpl; [reflexivity|].
  intros H. destruct (Nat.eqb (id z) (id x)) eqn:E; simpl.
  - apply Nat.eqb_eq in E. now rewrite (H z (or_introl eq_refl) E).
  - f_equal. apply IH. intros v Hv. apply H. now right.
Qed.

Lemma NoDup_map_snoc {A B : Type} (f : A -> B) (l : list A) (x : A) :
  NoDup (map f l) -> ~ In (f x) (map f l) -> NoDup (map f (l ++ [x])).
Proof.
  intros Hl Hx. rewrite map_app. simpl.
  apply NoDup_app; [assumption | repeat constructor; auto | ].
  intros b Hb [<-|[]]. contradiction.
Qed.

Lemma existsb_eqb_nat {A : Type} (id : A -> nat) (n : nat) (l : list A) :
  existsb (fun v => Nat.eqb (id v) n) l = false -> ~ In n (map id l).
Proof.
  intros H Hin. apply in_map_iff in Hin as (v & Hv & Hin).
  assert (existsb (fun v => Nat.eqb (id v) n) l = true) as Ht
    by (apply existsb_exists; exists v; split; [assumption | now apply Nat.eqb_eq]).
  congruence.
Qed.

Lemma existsb_eqb_string {A : Type} (key : A -> string) (k : string) (l : list A) :
  existsb (fun v => String.eqb (key v) k) l = false -> ~ In k (map key l).
Proof.
  intros H Hin. apply in_map_iff in Hin as (v & Hv & Hin).
  assert (existsb (fun v => String.eqb (key v) k) l = true) as Ht
    by (apply existsb_exists; exists v; split; [assumption | now apply String.eqb_eq]).
  congruence.
Qed.

Lemma unique_replace (x : Device.t) (l : list Device.t) :
  unique_devices l ->
  (forall v, In v l -> Device._id v = Device._id x ->
             Device.fingerprint v = Device.fingerprint x) ->
  unique_devices (replace (fun v => Nat.eqb (Device._id v) (Device._id x)) x l).
Proof.
  intros [Hid Hfp] Hsame. split; now rewrite map_replace.
Qed.

Lemma unique_snoc (x : Device.t) (l : list Device.t) :
  unique_devices l ->
  existsb (fun v => Nat.eqb (Device._id v) (Device._id x)) l = false ->
  existsb (fun v => String.eqb (Device.fingerprint v) (Device.fingerprint x)) l = false ->
  unique_devices (l ++ [x]).
Proof.
  intros [Hid Hfp] Ei Ef. split; apply NoDup_map_snoc; auto.
  - now apply existsb_eqb_nat.
  - now apply existsb_eqb_string.
Qed.

Ltac solve_unique :=
  lazymatch goal with
  | |- unique_devices (replace _ _ _) =>
      apply unique_replace;
      [ solve_unique
      | let v := fresh "v" in
        let Hv := fresh "Hv" in
        let Hid := fresh "Hid" in
        intros v Hv Hid; members;
        cbn [Device._id Device.fingerprint Device.set_lastLogin Device.set_trusted] in *;
        try reflexivity;
        try (exfalso;
             match goal with
             | F : forall d, In d (devices _) -> Device._id d < _, H : In v _ |- _ =>
                 specialize (F v H); lia
             end);
        try match goal with
            | U : unique_devices ?l, H1 : In v ?l, H2 : In ?d ?l |- _ =>
                rewrite (NoDup_map_eq Device._id l v d (proj1 U) H1 H2 Hid); reflexivity
            end ]
  | |- unique_devices (_ ++ [_]) =>
      apply unique_snoc; [ solve_unique | assumption | assumption ]
  | |- unique_devices _ => assumption
  end.

Lemma unique_devices_serve (env : Env) (r : Request) (w : World) :
  fresh_ids w -> unique_devices (devices w) ->
  unique_devices (devices (fst (serve env r w))).
Proof.
  intros (Hu & Hd & Ht) Hun.
  destruct r; cbn [serve];
    unfold register, login, deviceStatus, trustDevice, createTransfer, history;
    run_all; split_cases; solve_unique.
Qed.

Lemma reachable_unique_devices (w : World) : reachable w -> unique_devices (devices w).
Proof.
  induction 1 as [|env r w Hw IH].
  - split; constructor.
  - apply unique_devices_serve; [now apply reachable_fresh_ids | assumption].
Qed.

(** Each handler keeps the server in a reachable state. *)
Lemma reachable_register (env : Env) (req : AuthBody.t) (w : World) :
  reachable w -> reachable (fst (register env req w)).
Proof. exact (reachable_serve env (Register req) w). Qed.

Lemma reachable_login (env : Env) (req : AuthBody.t) (w : World) :
  reachable w -> reachable (fst (login env req w)).
Proof. exact (reachable_serve env (Login req) w). Qed.

Lemma reachable_trustDevice (env : Env) (userId : ObjectId) (req : TrustBody.t) (w : World) :
  reachable w -> reachable (fst (trustDevice env userId req w)).
Proof. exact (reachable_serve env (TrustDevice userId req) w). Qed.

Lemma reachable_createTransfer (env : Env) (userId : ObjectId) (req : TransferBody.t)
    (w : World) :
  reachable w -> reachable (fst (createTransfer env userId req w)).
Proof. exact (reachable_serve env (CreateTransfer userId req) w). Qed.

Lemma sample_registered_reachable : reachable Sample.registered.
Proof. apply reachable_register, reachable_start. Qed.

Lemma sample_trusting_reachable : reachable Sample.trusting.
Proof. apply reachable_trustDevice, sample_registered_reachable. Qed.

Lemma sample_two_accounts_reachable : reachable Sample.two_accounts.
Proof. apply reachable_register, sample_registered_reachable. Qed.

(** ** The device gate and the balance check *)

(** C2: a validated transfer request whose fingerprint is the digest of no
    trusted device of the account is answered 403 "Device not trusted for
    transfers"; whatever the request, the database is left as it was: no
    Transfer is created, no balance changes, the scorer is not called. *)
Theorem untrusted_device_is_rejected :
  forall (env : Env) (userId : ObjectId) (req : TransferBody.t) (fp : Json.attrs) (w : World),
    TransferBody.deviceFingerprint req = Some fp ->
    (forall d, In d (devices w) ->
               Device.userId d = userId ->
               Device.fingerprint d = deviceHash fp ->
               Device.trustStatus d <> Device.trusted) ->
    fst (createTransfer env userId req w) = w
    /\ (validated req = true ->
        snd (createTransfer env userId req w)
        = mkResponse 403 (Message "Device not trusted for transfers")).
Proof.
  intros env userId req fp w Hfp Hnot.
  assert (Hgate : forall d,
             find (fun d => Nat.eqb (Device.userId d) userId
                            && String.eqb (Device.fingerprint d) (deviceHash fp))
                  (devices w) = Some d ->
             Device.is_trusted (Device.trustStatus d) = false).
  { intros d Hd. apply find_some in Hd as [Hin Hp].
    apply andb_prop in Hp as [Hu Hf].
    apply Nat.eqb_eq in Hu. apply String.eqb_eq in Hf.
    specialize (Hnot d Hin Hu Hf).
    destruct (Device.trustStatus d); [reflexivity | congruence | reflexivity]. }
  split.
  - unfold createTransfer.
    destruct (JSString.truthy (TransferBody.recipientEmail req)); [|reflexivity].
    destruct (TransferBody.amount req) as [a|]; [|reflexivity].
    destruct (JSNumber.falsy a); [reflexivity|].
    destruct (JSNumber.le a zero); [reflexivity|].
    rewrite Hfp. run.
    destruct (find _ (devices w)) as [d|] eqn:Hd; [|reflexivity].
    now rewrite (Hgate d eq_refl).
  - intros Hv. destruct (validated_inv req Hv) as (r & a & Hr & Ha & Hf & Hle).
    unfold createTransfer. rewrite Hr, Ha, Hf, Hle, Hfp. run.
    destruct (find _ (devices w)) as [d|] eqn:Hd; [|reflexivity].
    now rewrite (Hgate d eq_refl).
Qed.

(** C8: a validated transfer request for more than the balance, from a
    trusted device of an existing account, is answered 400 "Insufficient
    balance"; it returns at line 428, before the scorer is called and
    before a Transfer is built: the balance stays, no Transfer is created. *)
Theorem insufficient_funds_are_rejected :
  forall (env : Env) (userId : ObjectId) (req : TransferBody.t) (fp : Json.attrs)
         (device : Device.t) (user : User.t) (amount : JSNumber.number) (w : World),
    validated req = true ->
    TransferBody.amount req = Some amount ->
    TransferBody.deviceFingerprint req = Some fp ->
    find (fun d => Nat.eqb (Device.userId d) userId
                   && String.eqb (Device.fingerprint d) (deviceHash fp)) (devices w)
      = Some device ->
    Device.trustStatus device = Device.trusted ->
    find (fun u => Nat.eqb (User._id u) userId) (users w) = Some user ->
    JSNumber.gt amount (User.balance user) = true ->
    snd (createTransfer env userId req w) = mkResponse 400 (Message "Insufficient balance")
    /\ fst (createTransfer env userId req w) = w
    /\ find (fun u => Nat.eqb (User._id u) userId)
            (users (fst (createTransfer env userId req w))) = Some user
    /\ transactions (fst (createTransfer env userId req w)) = transactions w
    /\ scorer_calls (fst (createTransfer env userId req w)) = scorer_calls w.
Proof.
  intros env userId req fp device user amount w Hv Ha Hfp Hd Ht Hu Hgt.
  assert (H : createTransfer env userId req w
              = (w, mkResponse 400 (Message "Insufficient balance"))).
  { destruct (validated_inv req Hv) as (r & a & Hr & Ha' & Hf & Hle).
    rewrite Ha in Ha'. injection Ha' as <-.
    unfold createTransfer. rewrite Hr, Ha, Hf, Hle, Hfp. run.
    rewrite Hd, Ht. cbn [Device.is_trusted negb]. run. rewrite Hu.
    unfold JSNumber.gt in Hgt. now rewrite Hgt. }
  rewrite H. cbn [fst snd]. auto.
Qed.

Lemma untrusted_device_is_rejected_witness :
  fst (createTransfer Sample.env_down 0 (Sample.transfer 50) Sample.registered)
  = Sample.registered
  /\ snd (createTransfer Sample.env_down 0 (Sample.transfer 50) Sample.registered)
     = mkResponse 403 (Message "Device not trusted for transfers").
Proof.
  destruct (untrusted_device_is_rejected Sample.env_down 0 (Sample.transfer 50)
              Sample.iphone Sample.registered) as [H1 H2].
  - reflexivity.
  - intros d Hd _ _. vm_compute in Hd. destruct Hd as [<-|[]]. discriminate.
  - split; [exact H1 | apply H2; reflexivity].
Defined.

Lemma insufficient_funds_are_rejected_witness :
  snd (createTransfer Sample.env_down 0 (Sample.transfer 50000) Sample.trusting)
  = mkResponse 400 (Message "Insufficient balance")
  /\ fst (createTransfer Sample.env_down 0 (Sample.transfer 50000) Sample.trusting)
     = Sample.trusting.
Proof.
  destruct (insufficient_funds_are_rejected Sample.env_down 0 (Sample.transfer 50000)
              Sample.iphone
              (Device.set_trusted
                 (Device.mk 1 0 (deviceHash Sample.iphone) (Device.info_of Sample.iphone)
                            false Device.pending (JSNumber.Finite (5 # 10)) None None None 7)
                 7 (JSNumber.Finite (2 # 10)) "Known device")
              (User.mk 0 "john.doe@example.com" "bcrypt:SecurePassword123!"
                       (JSNumber.Finite 10000) 7 7 User.active)
              (JSNumber.Finite 50000) Sample.trusting) as (H1 & H2 & _);
    try (vm_compute; reflexivity).
  split; assumption.
Defined.

(** ** The trust request *)


Lemma assessDeviceRisk_returns (env : Env) (fp : Json.attrs) (userId : ObjectId) (w : World) :
  exists p,
    assessDeviceRisk env fp userId w
    = (mkWorld (users w) (devices w) (transactions w) (next_id w) (p :: scorer_calls w),
       Returned (risk_of_reply (scorer env p))).
Proof. eexists. reflexivity. Qed.




(** ** Balances *)

Lemma bounded_le_initial (b : JSNumber.number) :
  bounded b -> JSNumber.le b initial_balance = true.
Proof.
  intros (q & -> & Hq). unfold JSNumber.le, initial_balance. cbn.
  apply negb_true_iff, Qlt_bool_false. exact Hq.
Qed.

Lemma bounded_le_self (b : JSNumber.number) : bounded b -> JSNumber.le b b = true.
Proof.
  intros (q & -> & _). unfold JSNumber.le. cbn.
  apply negb_true_iff, Qlt_bool_false. apply Qle_refl.
Qed.

(** What a request does to the accounts: each account of the new state is an
    account of the old one with a balance no larger, or was just created
    with the initial balance. *)
Lemma balances_step (env : Env) (r : Request) (w : World) :
  fresh_ids w -> balances_bounded w ->
  forall u', In u' (users (fst (serve env r w))) ->
    (exists u, In u (users w) /\ User._id u = User._id u'
               /\ JSNumber.le (User.balance u') (User.balance u) = true)
    \/ ((forall u, In u (users w) -> User._id u <> User._id u')
        /\ User.balance u' = initial_balance
        /\ exists req, r = Register req).
Proof.
  intros (Hu & _ & _) Hb.
  assert (Hold : forall u, In u (users w) ->
            exists u0, In u0 (users w) /\ User._id u0 = User._id u
                       /\ JSNumber.le (User.balance u) (User.balance u0) = true)
    by (intros u Hin; exists u; auto using bounded_le_self).
  destruct r; cbn [serve];
    unfold register, login, deviceStatus, trustDevice, createTransfer, history;
    run_all; split_cases; intros z Hz; members; auto.
  all: first
         [ solve [ right; cbn [User._id User.balance]; repeat split; eauto;
                   intros u Hin Heq; specialize (Hu u Hin); lia ]
         | left;
           match goal with
           | Hin : In ?u (users _) |- _ =>
               exists u; cbn [User._id User.balance User.set_balance];
               repeat split; auto; apply debit_bounded; auto
           end ].
Qed.

(** Only a transfer changes an account. *)
Lemma accounts_kept (env : Env) (r : Request) (w : World) :
  fresh_ids w ->
  (forall userId req, r <> CreateTransfer userId req) ->
  forall u, In u (users w) -> In u (users (fst (serve env r w))).
Proof.
  intros (Hu & _ & _) Hr.
  destruct r; cbn [serve]; try (exfalso; eapply Hr; reflexivity);
    unfold register, login, deviceStatus, trustDevice, history;
    run_all; split_cases; intros z Hz; auto using in_or_app.
  all: apply replace_keeps; auto; cbn [User._id];
       apply Nat.eqb_neq; specialize (Hu z Hz); lia.
Qed.

(** C10: in every state the server can reach, each balance is at most
    10000; a request leaves each account with a balance no larger than
    before or creates it, by registration, with balance exactly 10000; and
    a request other than a transfer leaves every account as it was. *)
Theorem balances_never_exceed_initial :
  forall w : World,
    reachable w ->
    (forall u, In u (users w) -> JSNumber.le (User.balance u) (JSNumber.Finite 10000) = true)
    /\ (forall (env : Env) (r : Request) (u' : User.t),
           In u' (users (fst (serve env r w))) ->
           (exists u, In u (users w) /\ User._id u = User._id u'
                      /\ JSNumber.le (User.balance u') (User.balance u) = true)
           \/ ((forall u, In u (users w) -> User._id u <> User._id u')
               /\ User.balance u' = JSNumber.Finite 10000
               /\ exists req, r = Register req))
    /\ (forall (env : Env) (r : Request),
           (forall userId req, r <> CreateTransfer userId req) ->
           forall u, In u (users w) -> In u (users (fst (serve env r w)))).
Proof.
  intros w Hw.
  pose proof (reachable_fresh_ids w Hw) as Hf.
  pose proof (reachable_balances_bounded w Hw) as Hb.
  split; [|split].
  - intros u Hin. apply bounded_le_initial. now apply Hb.
  - intros env r. now apply balances_step.
  - intros env r. now apply accounts_kept.
Qed.

(** ** The fingerprint digest and the order of the fields *)

Section Serialization.

Import Json.

Lemma unescape_escape_unit (c : ascii) (rest : string) :
  unescape_head (escape_unit c ++ rest) = Some (c, rest).
Proof.
  destruct c as [[|] [|] [|] [|] [|] [|] [|] [|]]; reflexivity.
Qed.

Lemma escape_unit_prefix_free (c1 c2 : ascii) (r1 r2 : string) :
  escape_unit c1 ++ r1 = escape_unit c2 ++ r2 -> c1 = c2 /\ r1 = r2.
Proof.
  intros H. apply (f_equal unescape_head) in H.
  rewrite !unescape_escape_unit in H. now injection H.
Qed.

Lemma escape_unit_not_quote (c : ascii) (r1 r2 : string) :
  escape_unit c ++ r1 <> String quote_unit r2.
Proof.
  intros H. pose proof (f_equal unescape_head H) as H'.
  rewrite unescape_escape_unit in H'. cbn in H'. injection H' as -> _.
  discriminate H.
Qed.

Lemma String_tail (c : ascii) (a b : string) : String c a = String c b -> a = b.
Proof. now intros [=]. Qed.

Lemma append_assoc (a b c : string) : (a ++ b) ++ c = a ++ (b ++ c).
Proof. induction a as [|x a IH]; simpl; [reflexivity | now rewrite IH]. Qed.

(** An escaped text ends at the first quote that is not escaped. *)
Lemma escape_delimited (s1 s2 r1 r2 : string) :
  escape s1 ++ String quote_unit r1 = escape s2 ++ String quote_unit r2 ->
  s1 = s2 /\ r1 = r2.
Proof.
  revert s2. induction s1 as [|c1 s1 IH]; intros [|c2 s2]; simpl; intros H.
  - now injection H.
  - symmetry in H. rewrite append_assoc in H. now apply escape_unit_not_quote in H.
  - rewrite append_assoc in H. now apply escape_unit_not_quote in H.
  - rewrite !append_assoc in H. apply escape_unit_prefix_free in H as [-> H].
    apply IH in H as [-> ->]. auto.
Qed.

Lemma quote_delimited (s1 s2 r1 r2 : string) :
  quote s1 ++ r1 = quote s2 ++ r2 -> s1 = s2 /\ r1 = r2.
Proof.
  unfold quote. simpl. rewrite !append_assoc. simpl.
  intros H. injection H as H. now apply escape_delimited.
Qed.

Lemma member_delimited (kv1 kv2 : string * string) (r1 r2 : string) :
  member kv1 ++ r1 = member kv2 ++ r2 -> kv1 = kv2 /\ r1 = r2.
Proof.
  destruct kv1 as [k1 v1], kv2 as [k2 v2]. unfold member. cbn [fst snd].
  rewrite !append_assoc. intros H.
  apply quote_delimited in H as [-> H]. cbn [append] in H. apply String_tail in H.
  apply quote_delimited in H as [-> ->]. auto.
Qed.

Lemma member_starts_with_quote (kv : string * string) (r : string) :
  exists t, member kv ++ r = String quote_unit t.
Proof. unfold member, quote. simpl. eexists. reflexivity. Qed.

Lemma members_injective (a1 a2 : attrs) :
  members a1 ++ "}" = members a2 ++ "}" -> a1 = a2.
Proof.
  revert a2. induction a1 as [|kv1 a1 IH]; intros [|kv2 a2] H.
  - reflexivity.
  - exfalso. cbn [members] in H.
    destruct a2; [|rewrite append_assoc in H];
      destruct (member_starts_with_quote kv2 "}") as [t Ht];
      [rewrite Ht in H; discriminate|].
    match type of H with _ = _ ++ ?r =>
      destruct (member_starts_with_quote kv2 r) as [t' Ht'];
      rewrite Ht' in H; discriminate
    end.
  - exfalso. cbn [members] in H.
    destruct a1; [|rewrite append_assoc in H];
      destruct (member_starts_with_quote kv1 "}") as [t Ht];
      [rewrite Ht in H; discriminate|].
    match type of H with _ ++ ?r = _ =>
      destruct (member_starts_with_quote kv1 r) as [t' Ht'];
      rewrite Ht' in H; discriminate
    end.
  - cbn [members] in H.
    destruct a1 as [|x1 a1], a2 as [|x2 a2].
    + apply member_delimited in H as [-> _]. reflexivity.
    + rewrite append_assoc in H. apply member_delimited in H as [_ H]. discriminate H.
    + rewrite append_assoc in H. apply member_delimited in H as [_ H]. discriminate H.
    + rewrite !append_assoc in H. apply member_delimited in H as [-> H].
      cbn [append] in H. apply String_tail in H.
      rewrite (IH (x2 :: a2)); [reflexivity|].
      exact H.
Qed.

(** [JSON.stringify] keeps the fields and their order: two fingerprints
    have the same text only when they are the same list of fields. *)
Lemma stringify_injective (a1 a2 : attrs) : stringify a1 = stringify a2 -> a1 = a2.
Proof.
  unfold stringify. simpl. intros H. injection H as H. now apply members_injective.
Qed.

End Serialization.

(** C3, as the code has it: the digest is computed from the text
    [JSON.stringify] gives, which lists the fields in the order of the
    object.  For a fingerprint and a permutation of it, the two texts are
    equal exactly when the order of the fields is the same, and fingerprints
    with the same text get the same digest, in registration, login, trust
    request and transfer alike ([deviceHash] is what each of them
    computes). *)
Theorem digest_follows_field_order :
  forall A A' : Json.attrs,
    Permutation A A' ->
    (Json.stringify A = Json.stringify A' <-> A = A')
    /\ (Json.stringify A = Json.stringify A' -> deviceHash A = deviceHash A')
    /\ (A <> A' -> Json.stringify A <> Json.stringify A').
Proof.
  intros A A' _. split; [split|split].
  - apply stringify_injective.
  - now intros ->.
  - unfold deviceHash. now intros ->.
  - intros Hne H. apply Hne. now apply stringify_injective.
Qed.

Lemma sample_fingerprints_permuted : Permutation Sample.iphone Sample.iphone_reordered.
Proof.
  unfold Sample.iphone, Sample.iphone_reordered.
  repeat apply perm_skip. apply perm_swap.
Qed.

Lemma digest_follows_field_order_witness :
  Json.stringify Sample.iphone <> Json.stringify Sample.iphone_reordered.
Proof.
  apply (digest_follows_field_order Sample.iphone Sample.iphone_reordered
           sample_fingerprints_permuted).
  discriminate.
Defined.

(** C3 fails: the fields of the sample fingerprint in another order give
    another digest, and the device registered under the one is not found by
    a trust request that carries the other. *)
Lemma digest_changes_with_field_order :
  Permutation Sample.iphone Sample.iphone_reordered
  /\ deviceHash Sample.iphone <> deviceHash Sample.iphone_reordered
  /\ snd (trustDevice Sample.env_down 0 (TrustBody.mk (Some Sample.iphone_reordered))
                      Sample.registered)
     = mkResponse 404 (Message "Device not found").
Proof.
  split; [exact sample_fingerprints_permuted | split].
  - intros H. vm_compute in H. discriminate H.
  - vm_compute. reflexivity.
Qed.

(** ** Device resolution at login *)

Lemma replace_snoc {A : Type} (same : A -> bool) (x d : A) (l : list A) :
  existsb same l = false -> same d = true ->
  replace same x (l ++ [d])%list = (l ++ [x])%list.
Proof.
  intros Hl Hd. induction l as [|z l IH]; simpl in *.
  - now rewrite Hd.
  - apply orb_false_iff in Hl as [Hz Hl]. rewrite Hz. f_equal. auto.
Qed.

Section Login.

Variables (env : Env) (req : AuthBody.t) (w : World).
Variables (email password : string) (fp : Json.attrs) (user : User.t).

Hypothesis Hemail : JSString.truthy (AuthBody.email req) = Some email.
Hypothesis Hpassword : JSString.truthy (AuthBody.password req) = Some password.
Hypothesis Huser : find (fun u => String.eqb (User.email u) email) (users w) = Some user.
Hypothesis Hmatch : comparePassword (auth env) password (User.password user) = true.
Hypothesis Hfp : AuthBody.deviceFingerprint req = Some fp.

(** Lines 198 and 213-214: a document with the digest exists. *)
Lemma login_touches_device (d : Device.t) :
  find (fun v => String.eqb (Device.fingerprint v) (deviceHash fp)) (devices w) = Some d ->
  devices (fst (login env req w))
  = replace (fun v => Nat.eqb (Device._id v) (Device._id d))
            (Device.set_lastLogin d (now env)) (devices w).
Proof.
  intros Hd. destruct (find_some _ _ Hd) as [Hin _].
  assert (Hexists : existsb (fun v => Nat.eqb (Device._id v) (Device._id d)) (devices w)
                    = true).
  { apply existsb_exists. exists d. split; [assumption | apply Nat.eqb_refl]. }
  unfold login. rewrite Hemail, Hpassword. run. rewrite Huser, Hmatch. cbn [negb].
  rewrite Hfp. run. rewrite Hd. run. unfold Device_save.
  cbn [users devices transactions next_id scorer_calls Device._id Device.set_lastLogin].
  rewrite Hexists. reflexivity.
Qed.

(** Lines 198-214: no document has the digest. *)
Lemma login_creates_device :
  fresh_ids w ->
  find (fun v => String.eqb (Device.fingerprint v) (deviceHash fp)) (devices w) = None ->
  devices (fst (login env req w))
  = (devices w
     ++ [Device.mk (next_id w) (User._id user) (deviceHash fp) (Device.info_of fp) false
                   Device.pending (JSNumber.Finite (7 # 10)) (Some "New device detected")
                   (Some (now env)) None (now env)])%list.
Proof.
  intros (_ & Hids & _) Hnone.
  pose proof (existsb_fresh Device._id (next_id w) (devices w) Hids) as Hfresh.
  pose proof (existsb_not_found _ _ Hnone) as Hnew.
  unfold login. rewrite Hemail, Hpassword. run. rewrite Huser, Hmatch. cbn [negb].
  rewrite Hfp. run. rewrite Hnone. run. unfold Device_save at 1.
  cbn [users devices transactions next_id scorer_calls Device._id Device.fingerprint].
  rewrite Hfresh, Hnew. run. unfold Device_save.
  cbn [users devices transactions next_id scorer_calls Device._id Device.set_lastLogin].
  rewrite existsb_app. cbn [existsb Device._id]. rewrite Nat.eqb_refl, orb_true_r.
  cbn [fst devices]. apply replace_snoc; [exact Hfresh | apply Nat.eqb_refl].
Qed.

End Login.

(** C5, as the code has it: login looks a device up by its digest alone.
    In every reachable state no two device documents share a digest,
    whoever owns them; when a document has the digest of the submitted
    fingerprint, a successful login stamps [lastLogin] on that document and
    creates none; when none has it, the login creates one pending device
    owned by the account that logs in. *)
Theorem login_resolves_by_digest_alone :
  forall (env : Env) (req : AuthBody.t) (w : World) (email password : string)
         (fp : Json.attrs) (user : User.t),
    reachable w ->
    JSString.truthy (AuthBody.email req) = Some email ->
    JSString.truthy (AuthBody.password req) = Some password ->
    find (fun u => String.eqb (User.email u) email) (users w) = Some user ->
    comparePassword (auth env) password (User.password user) = true ->
    AuthBody.deviceFingerprint req = Some fp ->
    NoDup (map Device.fingerprint (devices w))
    /\ NoDup (map Device.fingerprint (devices (fst (login env req w))))
    /\ (forall d,
           find (fun v => String.eqb (Device.fingerprint v) (deviceHash fp)) (devices w)
           = Some d ->
           devices (fst (login env req w))
           = replace (fun v => Nat.eqb (Device._id v) (Device._id d))
                     (Device.set_lastLogin d (now env)) (devices w))
    /\ (find (fun v => String.eqb (Device.fingerprint v) (deviceHash fp)) (devices w)
        = None ->
        devices (fst (login env req w))
        = (devices w
           ++ [Device.mk (next_id w) (User._id user) (deviceHash fp) (Device.info_of fp)
                         false Device.pending (JSNumber.Finite (7 # 10))
                         (Some "New device detected") (Some (now env)) None (now env)])%list).
Proof.
  intros env req w email password fp user Hw He Hp Hu Hm Hfp.
  split; [apply (reachable_unique_devices w Hw)|].
  split; [apply (reachable_unique_devices _ (reachable_login env req w Hw))|].
  split.
  - intros d. now apply (login_touches_device env req w email password fp user).
  - apply (login_creates_device env req w email password fp user); auto.
    now apply reachable_fresh_ids.
Qed.

Lemma login_resolves_by_digest_alone_witness :
  map Device.userId
      (devices (fst (login Sample.env_later Sample.jane_on_johns_phone Sample.two_accounts)))
  = [0].
Proof.
  unshelve epose proof
    (login_resolves_by_digest_alone Sample.env_later Sample.jane_on_johns_phone
       Sample.two_accounts "jane.smith@example.com" "Password456!" Sample.iphone
       (User.mk 2 "jane.smith@example.com" "bcrypt:Password456!"
                (JSNumber.Finite 10000) 7 7 User.active)
       sample_two_accounts_reachable _ _ _ _ _) as (_ & _ & Hfound & _).
  1-5: vm_compute; reflexivity.
  rewrite (Hfound (Device.mk 1 0 (deviceHash Sample.iphone) (Device.info_of Sample.iphone)
                             false Device.pending (JSNumber.Finite (5 # 10))
                             None None None 7));
    vm_compute; reflexivity.
Defined.

(** C5 fails: John registered on his phone, Jane registered without a
    device; Jane then logs in with the attributes of John's phone.  The login
    succeeds, the only device document is still John's (the accounts are 0
    and 2, the owner is 0), none is created for Jane, and the login has
    stamped [lastLogin] on John's. *)
Lemma login_touches_the_other_accounts_device :
  code (snd (login Sample.env_later Sample.jane_on_johns_phone Sample.two_accounts)) = 200
  /\ map User._id (users Sample.two_accounts) = [0; 2]
  /\ map Device.userId (devices Sample.two_accounts) = [0]
  /\ map Device.lastLogin (devices Sample.two_accounts) = [None]
  /\ map Device.userId
         (devices (fst (login Sample.env_later Sample.jane_on_johns_phone
                              Sample.two_accounts))) = [0]
  /\ map Device.lastLogin
         (devices (fst (login Sample.env_later Sample.jane_on_johns_phone
                              Sample.two_accounts))) = [Some 9].
Proof. vm_compute. repeat split. Qed.

(** ** The scorer fails *)

(** C7, as the code has it: when the call to the scorer fails, the device
    assessment returns score 0.6 with reason "Unable to perform AI risk
    assessment", the transfer assessment returns score 0.4 with no alert and
    analysis "Unable to perform AI analysis", neither throws, and a transfer
    that passes the gates is completed on this fallback: the response is
    200 "Transfer completed" and the Transfer is saved as completed. *)
Theorem scorer_failure_falls_back :
  forall env : Env,
    (forall p, scorer env p = None) ->
    (forall (fp : Json.attrs) (userId : ObjectId) (w : World),
        exists w1,
          assessDeviceRisk env fp userId w
          = (w1, Returned (mkRisk (JSNumber.Finite (6 # 10))
                                  "Unable to perform AI risk assessment")))
    /\ (forall (amount : JSNumber.number) (recipient : string) (info : Device.Info)
               (w : World),
           exists w1,
             performFraudDetection env amount recipient info w
             = (w1, Returned (mkAnalysis (JSNumber.Finite (4 # 10)) []
                                         "Unable to perform AI analysis")))
    /\ (forall (userId : ObjectId) (req : TransferBody.t) (w : World) (recipient : string)
               (amount : JSNumber.number) (fp : Json.attrs) (device : Device.t)
               (user : User.t),
           reachable w ->
           JSString.truthy (TransferBody.recipientEmail req) = Some recipient ->
           TransferBody.amount req = Some amount ->
           validated req = true ->
           TransferBody.deviceFingerprint req = Some fp ->
           find (fun d => Nat.eqb (Device.userId d) userId
                          && String.eqb (Device.fingerprint d) (deviceHash fp)) (devices w)
           = Some device ->
           Device.trustStatus device = Device.trusted ->
           find (fun u => Nat.eqb (User._id u) userId) (users w) = Some user ->
           JSNumber.lt (User.balance user) amount = false ->
           snd (createTransfer env userId req w)
           = mkResponse 200
               (TransferResult "Transfer completed" (next_id w) Transaction.completed
                  (mkAnalysis (JSNumber.Finite (4 # 10)) []
                              "Unable to perform AI analysis"))
           /\ exists t,
               transactions (fst (createTransfer env userId req w))
               = (transactions w ++ [t])%list
               /\ Transaction.status t = Transaction.completed
               /\ Transaction.completedAt t = Some (now env)
               /\ Transaction.fraudDetection t
                  = Transaction.mkFraud (JSNumber.Finite (4 # 10)) []
                                        "Unable to perform AI analysis").
Proof.
  intros env Hdown. split; [|split].
  - intros fp userId w. destruct (assessDeviceRisk_returns env fp userId w) as [p ->].
    rewrite Hdown. eexists. reflexivity.
  - intros amount recipient info w. unfold performFraudDetection. run.
    rewrite Hdown. eexists. reflexivity.
  - intros userId req w recipient amount fp device user Hw Hr Ha Hv Hfp Hd Ht Hu Hf.
    rewrite (transfer_completed env userId req w recipient amount fp device user
               Hr Ha Hv Hfp Hd Ht Hu Hf (reachable_fresh_ids w Hw));
      rewrite Hdown; [|reflexivity].
    cbn [fst snd transactions]. split; [reflexivity|].
    eexists. split; [reflexivity|]. repeat split.
Qed.

Lemma scorer_failure_falls_back_witness :
  map Transaction.status
      (transactions (fst (createTransfer Sample.env_down 0 (Sample.transfer 50)
                                         Sample.trusting)))
  = [Transaction.completed].
Proof.
  unshelve epose proof
    (proj2 (proj2 (scorer_failure_falls_back Sample.env_down (fun _ => eq_refl)))
       0 (Sample.transfer 50) Sample.trusting "jane.smith@example.com"
       (JSNumber.Finite 50) Sample.iphone
       (Device.set_trusted
          (Device.mk 1 0 (deviceHash Sample.iphone) (Device.info_of Sample.iphone)
                     false Device.pending (JSNumber.Finite (5 # 10)) None None None 7)
          7 (JSNumber.Finite (2 # 10)) "Known device")
       (User.mk 0 "john.doe@example.com" "bcrypt:SecurePassword123!"
                (JSNumber.Finite 10000) 7 7 User.active)
       sample_trusting_reachable _ _ _ _ _ _ _ _) as (_ & t & Ht & Hs & _).
  1-8: vm_compute; reflexivity.
  rewrite Ht, map_app. cbn [map]. rewrite Hs. vm_compute. reflexivity.
Defined.

(** C7 fails on the reason: with the scorer down, neither assessment
    returns the text "assessment unavailable". *)
Lemma fallback_reason_is_another_text :
  snd (assessDeviceRisk Sample.env_down Sample.iphone 0 Sample.registered)
  = Returned (mkRisk (JSNumber.Finite (6 # 10)) "Unable to perform AI risk assessment")
  /\ snd (assessDeviceRisk Sample.env_down Sample.iphone 0 Sample.registered)
     <> Returned (mkRisk (JSNumber.Finite (6 # 10)) "assessment unavailable")
  /\ snd (performFraudDetection Sample.env_down (JSNumber.Finite 50)
            "jane.smith@example.com" (Device.info_of Sample.iphone) Sample.trusting)
     = Returned (mkAnalysis (JSNumber.Finite (4 # 10)) [] "Unable to perform AI analysis")
  /\ snd (performFraudDetection Sample.env_down (JSNumber.Finite 50)
            "jane.smith@example.com" (Device.info_of Sample.iphone) Sample.trusting)
     <> Returned (mkAnalysis (JSNumber.Finite (4 # 10)) [] "assessment unavailable").
Proof.
  repeat split; try (vm_compute; reflexivity);
    intros H; vm_compute in H; discriminate H.
Qed.

(** ** A reply whose score is not a number *)

(** Whatever the scorer replies, the score an assessment returns is within
    [0, 1] or is [NaN], and it is [NaN] exactly when [parseFloat] finds no
    number in the score field. *)
Theorem parsed_score_in_range_or_NaN :
  forall result : string,
    (fa_riskScore (parseFraud result) = JSNumber.NaN
     \/ in_unit_interval (fa_riskScore (parseFraud result)) = true)
    /\ (ra_riskScore (parseDeviceRisk result) = JSNumber.NaN
        \/ in_unit_interval (ra_riskScore (parseDeviceRisk result)) = true)
    /\ (fa_riskScore (parseFraud result) = JSNumber.NaN
        <-> parseFloat_or (tagged_field "RISK_SCORE" (JSString.split LF result))
                          (JSNumber.Finite (3 # 10)) = JSNumber.NaN)
    /\ (ra_riskScore (parseDeviceRisk result) = JSNumber.NaN
        <-> parseFloat_or (tagged_field "RISK_SCORE" (JSString.split LF result))
                          (JSNumber.Finite (5 # 10)) = JSNumber.NaN).
Proof.
  intros result. unfold parseFraud, parseDeviceRisk. cbn [fa_riskScore ra_riskScore].
  assert (H : forall x, clamp x = JSNumber.NaN \/ in_unit_interval (clamp x) = true).
  { intros x. destruct x as [| | |q]; [left; reflexivity | right ..];
      apply clamp_number; discriminate. }
  repeat split; auto; try apply clamp_isNaN.
Qed.

(** C6 at a reply whose score field is a word: [parseFloat] gives [NaN],
    the clamp returns it, and the score of either assessment is not within
    [0, 1]. *)
Theorem unparsed_score_is_not_clamped :
  fa_riskScore (parseFraud Sample.unparsed) = JSNumber.NaN
  /\ in_unit_interval (fa_riskScore (parseFraud Sample.unparsed)) = false
  /\ ra_riskScore (parseDeviceRisk Sample.unparsed_device) = JSNumber.NaN
  /\ in_unit_interval (ra_riskScore (parseDeviceRisk Sample.unparsed_device)) = false.
Proof. vm_compute. repeat split. Qed.





Lemma sample_after_transfer_reachable : reachable Sample.after_transfer.
Proof. apply reachable_createTransfer, sample_trusting_reachable. Qed.

Lemma balances_never_exceed_initial_witness :
  forallb (fun u => JSNumber.le (User.balance u) (JSNumber.Finite 10000))
          (users Sample.after_transfer) = true.
Proof.
  apply forallb_forall.
  exact (proj1 (balances_never_exceed_initial Sample.after_transfer
                  sample_after_transfer_reachable)).
Defined.

(** ** Transfers on record *)

Lemma positive_amount (a : JSNumber.number) :
  JSNumber.falsy a = false -> JSNumber.le a zero = false -> JSNumber.gt a zero = true.
Proof.
  destruct a as [| | |q]; try discriminate; try reflexivity.
  unfold JSNumber.le, JSNumber.gt, zero. cbn. intros _ H.
  now apply negb_false_iff in H.
Qed.

Lemma fraud_score_in_range (reply : option string) :
  fa_riskScore (fraud_of_reply reply) = JSNumber.NaN
  \/ in_unit_interval (fa_riskScore (fraud_of_reply reply)) = true.
Proof.
  destruct reply as [result|]; [|right; reflexivity].
  unfold fraud_of_reply, parseFraud. cbn [fa_riskScore].
  destruct (parseFloat_or _ _) as [| | |q]; [left; reflexivity | right ..];
    apply clamp_number; discriminate.
Qed.

Lemma consistent_serve (env : Env) (r : Request) (w : World) :
  (forall t, In t (transactions w) -> consistent t) ->
  forall t, In t (transactions (fst (serve env r w))) -> consistent t.
Proof.
  intros Hc.
  destruct r; cbn [serve];
    unfold register, login, deviceStatus, trustDevice, createTransfer, history;
    run_all; split_cases; intros z Hz; members; auto.
  all: unfold consistent;
    cbn [Transaction.status Transaction.fraudDetection Transaction.riskScore
         Transaction.completedAt Transaction.amount Transaction.set_completed];
    match goal with
    | |- context [fraud_of_reply ?reply] =>
        pose proof (fraud_score_in_range reply) as Hrange;
        destruct (threshold_cases (fa_riskScore (fraud_of_reply reply)))
          as [[? ?]|[[? ?]|(? & ? & ?)]]
    end;
    repeat split; auto using positive_amount; try congruence.
Qed.

Lemma reachable_consistent (w : World) :
  reachable w -> forall t, In t (transactions w) -> consistent t.
Proof.
  induction 1 as [|env r w _ IH]; [intros t []|].
  now apply consistent_serve.
Qed.

(** ** Accounts *)

Lemma unique_users_replace (x : User.t) (l : list User.t) :
  unique_users l ->
  (forall v, In v l -> User._id v = User._id x -> User.email v = User.email x) ->
  unique_users (replace (fun v => Nat.eqb (User._id v) (User._id x)) x l).
Proof.
  intros [Hid Hem] Hsame. split; now rewrite map_replace.
Qed.

Lemma unique_users_snoc (x : User.t) (l : list User.t) :
  unique_users l ->
  existsb (fun v => Nat.eqb (User._id v) (User._id x)) l = false ->
  existsb (fun v => String.eqb (User.email v) (User.email x)) l = false ->
  unique_users (l ++ [x]).
Proof.
  intros [Hid Hem] Ei Ee. split; apply NoDup_map_snoc; auto.
  - now apply existsb_eqb_nat.
  - now apply existsb_eqb_string.
Qed.

Ltac solve_unique_users :=
  lazymatch goal with
  | |- unique_users (replace _ _ _) =>
      apply unique_users_replace;
      [ solve_unique_users
      | let v := fresh "v" in
        let Hv := fresh "Hv" in
        let Hid := fresh "Hid" in
        intros v Hv Hid; members;
        cbn [User._id User.email User.set_balance] in *;
        try reflexivity;
        try (exfalso;
             match goal with
             | F : forall u, In u (users _) -> User._id u < _, H : In v _ |- _ =>
                 specialize (F v H); lia
             end);
        try match goal with
            | U : unique_users ?l, H1 : In v ?l, H2 : In ?u ?l |- _ =>
                rewrite (NoDup_map_eq User._id l v u (proj1 U) H1 H2 Hid); reflexivity
            end ]
  | |- unique_users (_ ++ [_]) =>
      apply unique_users_snoc; [ solve_unique_users | assumption | assumption ]
  | |- unique_users _ => assumption
  end.

Lemma unique_users_serve (env : Env) (r : Request) (w : World) :
  fresh_ids w -> unique_users (users w) ->
  unique_users (users (fst (serve env r w))).
Proof.
  intros (Hu & Hd & Ht) Hun.
  destruct r; cbn [serve];
    unfold register, login, deviceStatus, trustDevice, createTransfer, history;
    run_all; split_cases; solve_unique_users.
Qed.

Lemma reachable_unique_users (w : World) : reachable w -> unique_users (users w).
Proof.
  induction 1 as [|env r w Hw IH].
  - split; constructor.
  - apply unique_users_serve; [now apply reachable_fresh_ids | assumption].
Qed.

(** *** What one request does to the accounts and the Transfers *)

Ltac impossible_collision :=
  match goal with
  | E : existsb _ _ = true, F : fresh_ids _ |- _ =>
      exfalso; destruct F as (Fu & Fd & Ft);
      cbn [User._id Device._id Transaction._id Transaction.set_completed
           User.set_balance] in E;
      first [ rewrite (existsb_fresh _ _ _ Fu) in E
            | rewrite (existsb_fresh _ _ _ Fd) in E
            | rewrite (existsb_fresh _ _ _ Ft) in E ];
      discriminate E
  end.

(** A request other than a transfer adds no Transfer, and leaves the
    accounts as they are or adds one with the initial balance. *)
Lemma other_request_step (env : Env) (r : Request) (w : World) :
  fresh_ids w ->
  (forall userId req, r <> CreateTransfer userId req) ->
  transactions (fst (serve env r w)) = transactions w
  /\ (users (fst (serve env r w)) = users w
      \/ exists u, users (fst (serve env r w)) = (users w ++ [u])%list
                   /\ User.balance u = initial_balance
                   /\ User._id u = next_id w
                   /\ exists req, r = Register req).
Proof.
  intros Hf Hr.
  destruct r; cbn [serve]; try (exfalso; eapply Hr; reflexivity);
    unfold register, login, deviceStatus, trustDevice, history;
    run_all; split_cases; (split; [reflexivity|]); auto;
    try (right; eexists; repeat split; eauto; fail).
  all: impossible_collision.
Qed.

Ltac impossible_miss :=
  match goal with
  | E : existsb ?p ?l = false, H : In ?u ?l |- _ =>
      exfalso; apply (Bool.eq_true_false_abs (existsb p l)); [|exact E];
      apply existsb_exists; exists u; split; [exact H|];
      cbn [User._id User.set_balance]; apply Nat.eqb_refl
  end.

(** A transfer request leaves the devices alone and ends in one of three
    ways: nothing is written; a Transfer that is not completed is added; or
    a completed Transfer is added and its sender is debited. *)
Lemma transfer_step (env : Env) (userId : ObjectId) (req : TransferBody.t) (w : World) :
  fresh_ids w ->
  devices (fst (createTransfer env userId req w)) = devices w
  /\ ((users (fst (createTransfer env userId req w)) = users w
       /\ transactions (fst (createTransfer env userId req w)) = transactions w)
      \/ exists t user device,
           In user (users w) /\ User._id user = userId
           /\ In device (devices w) /\ Device.userId device = userId
           /\ Device.fingerprint device = Transaction.deviceFingerprint t
           /\ Device.trustStatus device = Device.trusted
           /\ Transaction.senderId t = userId
           /\ Transaction._id t = next_id w
           /\ transactions (fst (createTransfer env userId req w))
              = (transactions w ++ [t])%list
           /\ JSNumber.falsy (Transaction.amount t) = false
           /\ JSNumber.le (Transaction.amount t) zero = false
           /\ JSNumber.lt (User.balance user) (Transaction.amount t) = false
           /\ ((Transaction.status t <> Transaction.completed
                /\ users (fst (createTransfer env userId req w)) = users w)
               \/ (Transaction.status t = Transaction.completed
                   /\ users (fst (createTransfer env userId req w))
                      = replace (fun v => Nat.eqb (User._id v) (User._id user))
                                (User.set_balance user
                                   (JSNumber.sub (User.balance user)
                                                 (Transaction.amount t)))
                                (users w)))).
Proof.
  intros Hf.
  unfold createTransfer; run_all; split_cases; (split; [reflexivity|]);
    try (left; split; reflexivity);
    try impossible_collision; members; try impossible_miss.
  all: match goal with
       | Hg : _ && _ = true |- _ =>
           apply andb_prop in Hg; destruct Hg as [Hg1 Hg2];
           apply Nat.eqb_eq in Hg1; apply String.eqb_eq in Hg2
       end;
       match goal with
       | Hi : Nat.eqb (User._id _) _ = true |- _ => apply Nat.eqb_eq in Hi
       end;
       match goal with
       | Ht : negb (Device.is_trusted (Device.trustStatus ?d)) = false |- _ =>
           apply negb_false_iff in Ht;
           assert (Device.trustStatus d = Device.trusted)
             by (destruct (Device.trustStatus d); [discriminate | reflexivity | discriminate])
       end;
       match goal with
       | Hu : In ?u (users _), Hd : In ?d (devices _)
         |- context [ (transactions _ ++ [?x])%list ] =>
           right; exists x, u, d;
           cbn [Transaction.senderId Transaction._id Transaction.deviceFingerprint
                Transaction.amount Transaction.status Transaction.set_completed];
           repeat (split; [solve [eauto]|]);
           first [ left; split; [discriminate | reflexivity]
                 | right; split; reflexivity ]
       end.
Qed.

(** ** Devices are kept *)

Lemma same_device_refl (d : Device.t) : same_device d d.
Proof. repeat split; auto. Qed.

Lemma same_device_trans (a b c : Device.t) :
  same_device a b -> same_device b c -> same_device a c.
Proof.
  intros (H1 & H2 & H3 & H4 & H5 & H6) (K1 & K2 & K3 & K4 & K5 & K6).
  repeat split; try congruence. auto.
Qed.

Lemma same_device_lastLogin (d : Device.t) (at_ : Date) :
  same_device d (Device.set_lastLogin d at_).
Proof. repeat split; auto. Qed.

Lemma same_device_trusted (d : Device.t) (at_ : Date) (score : JSNumber.number)
    (reason : string) :
  same_device d (Device.set_trusted d at_ score reason).
Proof. repeat split; auto. Qed.

Lemma kept_snoc (d x : Device.t) (l : list Device.t) :
  (exists d', In d' l /\ same_device d d') ->
  exists d', In d' (l ++ [x]) /\ same_device d d'.
Proof. intros (d' & Hin & Hs). exists d'. split; [apply in_or_app; now left | assumption]. Qed.

Lemma kept_replace (d x : Device.t) (l : list Device.t) :
  (exists d', In d' l /\ same_device d d') ->
  (forall v, In v l -> Device._id v = Device._id x -> same_device v x) ->
  exists d', In d' (replace (fun v => Nat.eqb (Device._id v) (Device._id x)) x l)
             /\ same_device d d'.
Proof.
  intros (d1 & Hin & Hs) Hx.
  destruct (Nat.eqb (Device._id d1) (Device._id x)) eqn:E.
  - exists x. split.
    + clear Hs Hx. induction l as [|z l IH]; [destruct Hin|].
      simpl. destruct (Nat.eqb (Device._id z) (Device._id x)) eqn:Ez; [now left|].
      right. destruct Hin as [->|Hin]; [congruence | auto].
    + apply (same_device_trans d d1 x Hs). apply Hx; [assumption | now apply Nat.eqb_eq].
  - exists d1. split; [now apply replace_keeps | assumption].
Qed.

Ltac solve_kept :=
  lazymatch goal with
  | |- exists d', In d' (replace _ _ _) /\ _ =>
      apply kept_replace;
      [ solve_kept
      | let v := fresh "v" in
        let Hv := fresh "Hv" in
        let Hid := fresh "Hid" in
        intros v Hv Hid; members;
        cbn [Device._id Device.set_lastLogin Device.set_trusted] in Hid;
        try (exfalso;
             match goal with
             | F : forall d, In d (devices _) -> Device._id d < _, H : In v _ |- _ =>
                 specialize (F v H); lia
             end);
        try match goal with
            | U : unique_devices ?l, H1 : In v ?l, H2 : In ?d ?l |- _ =>
                rewrite (NoDup_map_eq Device._id l v d (proj1 U) H1 H2 Hid)
            end;
        auto using same_device_lastLogin, same_device_trusted ]
  | |- exists d', In d' (_ ++ [_]) /\ _ => apply kept_snoc; solve_kept
  | |- exists d', In d' _ /\ same_device ?d d' =>
      exists d; split; [assumption | apply same_device_refl]
  end.

(** Whatever the request, every device document is still there afterwards,
    with its [_id], owner, fingerprint and attributes, and trusted if it was. *)
Lemma devices_kept (env : Env) (r : Request) (w : World) :
  fresh_ids w -> unique_devices (devices w) ->
  forall d, In d (devices w) ->
    exists d', In d' (devices (fst (serve env r w))) /\ same_device d d'.
Proof.
  intros (Hu & Hd & Ht) Hun d Hin.
  destruct r; cbn [serve];
    unfold register, login, deviceStatus, trustDevice, createTransfer, history;
    run_all; split_cases; solve_kept.
Qed.

(** ** The ledger *)

Lemma transfer_or_other (r : Request) :
  (exists userId req, r = CreateTransfer userId req)
  \/ (forall userId req, r <> CreateTransfer userId req).
Proof. destruct r; try (right; discriminate). left. eauto. Qed.

Lemma In_replace_unique {A : Type} (id : A -> nat) (x y : A) (l : list A) :
  NoDup (map id l) ->
  In y (replace (fun v => Nat.eqb (id v) (id x)) x l) ->
  (In y l /\ id y <> id x) \/ y = x.
Proof.
  induction l as [|z l IH]; simpl; [tauto|].
  intros Hnd. inversion Hnd as [|? ? Hz Hl]; subst.
  destruct (Nat.eqb (id z) (id x)) eqn:E; simpl.
  - apply Nat.eqb_eq in E. intros [ <- | Hy ]; [now right|].
    left. split; [now right|]. intros Heq. apply Hz. rewrite E, <- Heq. now apply in_map.
  - apply Nat.eqb_neq in E. intros [ <- | Hy ]; [left; auto|].
    destruct (IH Hl Hy) as [ [Hin Hne] | -> ]; auto.
Qed.

Lemma known_in_replace {A : Type} (id : A -> nat) (x u : A) (l : list A) :
  In u l -> exists u', In u' (replace (fun v => Nat.eqb (id v) (id x)) x l) /\ id u' = id u.
Proof.
  induction l as [|z l IH]; simpl; [tauto|].
  destruct (Nat.eqb (id z) (id x)) eqn:E; intros [->|Hin].
  - exists x. split; [now left | symmetry; now apply Nat.eqb_eq].
  - exists u. split; [now right | reflexivity].
  - exists u. split; [now left | reflexivity].
  - destruct (IH Hin) as (u' & Hu' & Hid). exists u'. split; [now right | assumption].
Qed.

Lemma total_sent_none (userId : ObjectId) (l : list Transaction.t) :
  (forall t, In t l -> Transaction.senderId t <> userId) -> total_sent userId l = 0%Q.
Proof.
  induction l as [|t l IH]; simpl; [reflexivity|]. intros H.
  destruct (Nat.eqb (Transaction.senderId t) userId) eqn:E.
  - apply Nat.eqb_eq in E. exfalso. now apply (H t (or_introl eq_refl)).
  - apply IH. intros t' Ht'. apply H. now right.
Qed.

Lemma total_sent_snoc (userId : ObjectId) (l : list Transaction.t) (t : Transaction.t) :
  (total_sent userId (l ++ [t])
   == total_sent userId l
      + (if Nat.eqb (Transaction.senderId t) userId then sent t else 0))%Q.
Proof.
  induction l as [|z l IH]; simpl.
  - destruct (Nat.eqb (Transaction.senderId t) userId); lra.
  - destruct (Nat.eqb (Transaction.senderId z) userId); rewrite IH; lra.
Qed.

Lemma sent_unless_completed (t : Transaction.t) :
  Transaction.status t <> Transaction.completed -> sent t = 0%Q.
Proof. unfold sent. destruct (Transaction.status t); congruence. Qed.

(** What passes lines 402 and 427 against a balance that is a number is a
    positive number, at most the balance. *)
Lemma debit_amount (q : Q) (a : JSNumber.number) :
  JSNumber.falsy a = false ->
  JSNumber.le a zero = false ->
  JSNumber.lt (JSNumber.Finite q) a = false ->
  exists qa, a = JSNumber.Finite qa /\ (0 < qa)%Q /\ (qa <= q)%Q.
Proof.
  destruct a as [| | |qa]; try discriminate. intros _ Hle Hlt.
  exists qa. split; [reflexivity|].
  unfold JSNumber.le, zero in Hle. cbn in Hle.
  apply negb_false_iff, Qlt_bool_iff in Hle.
  cbn in Hlt. apply Qlt_bool_false in Hlt. auto.
Qed.

Lemma senders_known_serve (env : Env) (r : Request) (w : World) :
  fresh_ids w -> senders_known w -> senders_known (fst (serve env r w)).
Proof.
  intros Hf Hk t Ht.
  destruct (transfer_or_other r) as [(userId & req & ->)|Hr].
  - cbn [serve] in *.
    destruct (transfer_step env userId req w Hf)
      as (_ & [(Hu & Htx)|(t' & user & device & Hin & Hid & _ & _ & _ & _ & Hs & _ & Htx
                           & _ & _ & _ & Hcase)]).
    + rewrite Hu. apply Hk. now rewrite <- Htx.
    + rewrite Htx in Ht.
      assert (Hold : exists u, In u (users w) /\ User._id u = Transaction.senderId t).
      { apply in_app_or in Ht as [ Ht | [ <- | [] ] ]; [now apply Hk|].
        exists user. split; congruence. }
      destruct Hold as (u & Hu & Hidu).
      destruct Hcase as [(_ & ->)|(_ & ->)]; [eauto|].
      rewrite <- Hidu.
      exact (known_in_replace User._id
               (User.set_balance user
                  (JSNumber.sub (User.balance user) (Transaction.amount t')))
               u (users w) Hu).
  - destruct (other_request_step env r w Hf Hr) as (Htx & [Hu|(u & Hu & _)]).
    + rewrite Hu. apply Hk. now rewrite <- Htx.
    + rewrite Htx in Ht. destruct (Hk t Ht) as (u' & Hin & Hid).
      exists u'. rewrite Hu. split; [apply in_or_app; now left | assumption].
Qed.

Lemma ledger_balanced_serve (env : Env) (r : Request) (w : World) :
  fresh_ids w -> unique_users (users w) -> senders_known w ->
  ledger_balanced w -> ledger_balanced (fst (serve env r w)).
Proof.
  intros Hf [Hids _] Hk Hl u' Hu'.
  destruct (transfer_or_other r) as [(userId & req & ->)|Hr].
  - cbn [serve] in *.
    destruct (transfer_step env userId req w Hf)
      as (_ & [(Hu & Htx)|(t & user & device & Hin & Hid & _ & _ & _ & _ & Hs & _ & Htx
                           & Hfalsy & Hpos & Hfunds & Hcase)]).
    + rewrite Htx. apply Hl. now rewrite <- Hu.
    + rewrite Htx. destruct Hcase as [(Hst & Hu)|(Hst & Hu)]; rewrite Hu in Hu'.
      * destruct (Hl u' Hu') as (q & Hq & Heq). exists q. split; [assumption|].
        rewrite total_sent_snoc, (sent_unless_completed t Hst).
        destruct (Nat.eqb _ _); lra.
      * destruct (Hl user Hin) as (q & Hq & Heq).
        rewrite Hq in Hfunds.
        destruct (debit_amount q _ Hfalsy Hpos Hfunds) as (qa & Ha & _ & _).
        destruct (In_replace_unique User._id
                    (User.set_balance user
                       (JSNumber.sub (User.balance user) (Transaction.amount t)))
                    u' (users w) Hids Hu') as [ [Hold Hne] | -> ].
        -- destruct (Hl u' Hold) as (q' & Hq' & Heq'). exists q'. split; [assumption|].
           rewrite total_sent_snoc.
           cbn [User._id User.set_balance] in Hne.
           assert (Nat.eqb (Transaction.senderId t) (User._id u') = false) as ->
             by (apply Nat.eqb_neq; congruence).
           lra.
        -- cbn [User._id User.balance User.set_balance]. rewrite Hq, Ha.
           exists (q - qa)%Q. split; [reflexivity|].
           rewrite total_sent_snoc.
           assert (Nat.eqb (Transaction.senderId t) (User._id user) = true) as ->
             by (apply Nat.eqb_eq; congruence).
           unfold sent. rewrite Hst, Ha. lra.
  - destruct (other_request_step env r w Hf Hr) as (Htx & [Hu|(u & Hu & Hb & Hid & _)]).
    + rewrite Htx. apply Hl. now rewrite <- Hu.
    + rewrite Htx. rewrite Hu in Hu'. apply in_app_or in Hu' as [ Hu' | [ <- | [] ] ].
      * now apply Hl.
      * exists 10000%Q. split; [exact Hb|].
        rewrite total_sent_none; [lra|].
        intros t Ht Heq. destruct (Hk t Ht) as (v & Hv & Hidv).
        destruct Hf as (Fu & _). specialize (Fu v Hv). lia.
Qed.

Lemma balances_nonnegative_serve (env : Env) (r : Request) (w : World) :
  fresh_ids w -> balances_nonnegative w -> balances_nonnegative (fst (serve env r w)).
Proof.
  intros Hf Hn u' Hu'.
  destruct (transfer_or_other r) as [(userId & req & ->)|Hr].
  - cbn [serve] in *.
    destruct (transfer_step env userId req w Hf)
      as (_ & [(Hu & _)|(t & user & device & Hin & _ & _ & _ & _ & _ & _ & _ & _
                         & Hfalsy & Hpos & Hfunds & Hcase)]).
    + apply Hn. now rewrite <- Hu.
    + destruct Hcase as [(_ & Hu)|(_ & Hu)]; rewrite Hu in Hu'; [now apply Hn|].
      apply In_replace in Hu' as [Hu'| ->]; [now apply Hn|].
      destruct (Hn user Hin) as (q & Hq & Hq0). rewrite Hq in Hfunds.
      destruct (debit_amount q _ Hfalsy Hpos Hfunds) as (qa & Ha & _ & Hle).
      cbn [User.balance User.set_balance]. rewrite Hq, Ha.
      exists (q - qa)%Q. split; [reflexivity | lra].
  - destruct (other_request_step env r w Hf Hr) as (_ & [Hu|(u & Hu & Hb & _)]).
    + apply Hn. now rewrite <- Hu.
    + rewrite Hu in Hu'. apply in_app_or in Hu' as [ Hu' | [ <- | [] ] ]; [now apply Hn|].
      exists 10000%Q. split; [exact Hb | lra].
Qed.

Lemma from_trusted_device_serve (env : Env) (r : Request) (w : World) :
  fresh_ids w -> unique_devices (devices w) ->
  (forall t, In t (transactions w) -> from_trusted_device w t) ->
  forall t, In t (transactions (fst (serve env r w))) ->
            from_trusted_device (fst (serve env r w)) t.
Proof.
  intros Hf Hun Hall t Ht.
  assert (Hold : from_trusted_device w t -> from_trusted_device (fst (serve env r w)) t).
  { intros (d & Hd & Ho & Hp & Hs).
    destruct (devices_kept env r w Hf Hun d Hd) as (d' & Hd' & _ & Ho' & Hp' & _ & _ & Hs').
    exists d'. repeat split; [assumption | congruence | congruence | auto]. }
  apply Hold.
  destruct (transfer_or_other r) as [(userId & req & ->)|Hr].
  - cbn [serve] in *.
    destruct (transfer_step env userId req w Hf)
      as (_ & [(_ & Htx)|(t' & user & device & _ & _ & Hd & Ho & Hp & Hs & Hsender & _
                          & Htx & _)]).
    + apply Hall. now rewrite <- Htx.
    + rewrite Htx in Ht. apply in_app_or in Ht as [ Ht | [ <- | [] ] ]; [now apply Hall|].
      exists device. repeat split; congruence.
  - destruct (other_request_step env r w Hf Hr) as (Htx & _).
    apply Hall. now rewrite <- Htx.
Qed.

(** What holds in every state the server can reach. *)
Lemma reachable_invariants (w : World) :
  reachable w ->
  senders_known w /\ ledger_balanced w /\ balances_nonnegative w
  /\ (forall t, In t (transactions w) -> from_trusted_device w t).
Proof.
  induction 1 as [|env r w Hw (Hk & Hl & Hn & Ht)].
  - repeat split; intros ? [].
  - pose proof (reachable_fresh_ids w Hw) as Hf.
    repeat split.
    + now apply senders_known_serve.
    + apply ledger_balanced_serve; auto using reachable_unique_users.
    + now apply balances_nonnegative_serve.
    + apply from_trusted_device_serve; auto using reachable_unique_devices.
Qed.

(** ** Properties of every reachable state *)



(** Transfers on record: in every reachable state no Transfer is failed; a
    Transfer is blocked exactly when its stored score is above 0.8,
    completed exactly when the score is at most 0.8 and exactly when
    [completedAt] is set, pending exactly when the score is [NaN]; the score
    is within [0, 1] or [NaN]; the amount is positive. *)
Theorem transfers_on_record_are_consistent :
  forall (w : World) (t : Transaction.t),
    reachable w ->
    In t (transactions w) ->
    Transaction.status t <> Transaction.failed
    /\ (Transaction.status t = Transaction.blocked
        <-> JSNumber.gt (Transaction.riskScore (Transaction.fraudDetection t)) threshold
            = true)
    /\ (Transaction.status t = Transaction.completed
        <-> JSNumber.le (Transaction.riskScore (Transaction.fraudDetection t)) threshold
            = true)
    /\ (Transaction.status t = Transaction.pending
        <-> Transaction.riskScore (Transaction.fraudDetection t) = JSNumber.NaN)
    /\ (Transaction.status t = Transaction.completed
        <-> Transaction.completedAt t <> None)
    /\ (Transaction.riskScore (Transaction.fraudDetection t) = JSNumber.NaN
        \/ in_unit_interval (Transaction.riskScore (Transaction.fraudDetection t)) = true)
    /\ JSNumber.gt (Transaction.amount t) zero = true.
Proof.
  intros w t Hw Ht.
  destruct (reachable_consistent w Hw t Ht) as (Hs & Hr & Ha).
  cbv zeta in Hs.
  destruct (threshold_cases (Transaction.riskScore (Transaction.fraudDetection t)))
    as [[Hgt Hle]|[[Hgt Hle]|(HNaN & Hgt & Hle)]];
    destruct (Transaction.status t); try contradiction; destruct Hs as [Hs1 Hs2];
    repeat split; try congruence; try (intros ?; congruence); auto;
    try discriminate.
  all: intros H;
    repeat match goal with
           | HN : _ = JSNumber.NaN |- _ => rewrite HN in *; clear HN
           end;
    discriminate.
Qed.

Lemma transfers_on_record_are_consistent_witness :
  JSNumber.le (JSNumber.Finite (3 # 10)) threshold = true.
Proof.
  refine (proj1 (proj1 (proj2 (proj2 (transfers_on_record_are_consistent
            Sample.after_transfer
            (Transaction.mk 2 0 "jane.smith@example.com" (JSNumber.Finite 50)
               (Some "Payment for consulting services") (deviceHash Sample.iphone)
               Transaction.completed
               (Transaction.mkFraud (JSNumber.Finite (3 # 10)) ["none"] "ok") 7 (Some 7))
            sample_after_transfer_reachable _)))) eq_refl).
  vm_compute. left. reflexivity.
Defined.

(** In every reachable state each Transfer names an account as its sender
    and carries the digest of a device that belongs to that account and is
    trusted. *)
Theorem transfers_come_from_trusted_devices :
  forall (w : World) (t : Transaction.t),
    reachable w ->
    In t (transactions w) ->
    (exists u, In u (users w) /\ User._id u = Transaction.senderId t)
    /\ exists d, In d (devices w)
                 /\ Device.userId d = Transaction.senderId t
                 /\ Device.fingerprint d = Transaction.deviceFingerprint t
                 /\ Device.trustStatus d = Device.trusted.
Proof.
  intros w t Hw Ht.
  destruct (reachable_invariants w Hw) as (Hk & _ & _ & Hd).
  split; [now apply Hk | now apply Hd].
Qed.

Lemma transfers_come_from_trusted_devices_witness :
  exists d, In d (devices Sample.after_transfer)
            /\ Device.userId d = 0
            /\ Device.fingerprint d = deviceHash Sample.iphone
            /\ Device.trustStatus d = Device.trusted.
Proof.
  refine (proj2 (transfers_come_from_trusted_devices Sample.after_transfer
            (Transaction.mk 2 0 "jane.smith@example.com" (JSNumber.Finite 50)
               (Some "Payment for consulting services") (deviceHash Sample.iphone)
               Transaction.completed
               (Transaction.mkFraud (JSNumber.Finite (3 # 10)) ["none"] "ok") 7 (Some 7))
            sample_after_transfer_reachable _)).
  vm_compute. left. reflexivity.
Defined.

(** No request deletes a device, hands it to another account, changes its
    fingerprint or attributes, or takes its trust away: from a reachable
    state, every device document is found again after the request under the
    same [_id], with the same owner, fingerprint, attributes and creation
    date, and trusted if it was trusted. *)
Theorem devices_are_kept :
  forall (w : World) (env : Env) (r : Request) (d : Device.t),
    reachable w ->
    In d (devices w) ->
    exists d', In d' (devices (fst (serve env r w)))
               /\ Device._id d' = Device._id d
               /\ Device.userId d' = Device.userId d
               /\ Device.fingerprint d' = Device.fingerprint d
               /\ Device.deviceInfo d' = Device.deviceInfo d
               /\ Device.createdAt d' = Device.createdAt d
               /\ (Device.trustStatus d = Device.trusted ->
                   Device.trustStatus d' = Device.trusted).
Proof.
  intros w env r d Hw Hd.
  exact (devices_kept env r w (reachable_fresh_ids w Hw)
           (reachable_unique_devices w Hw) d Hd).
Qed.

Lemma devices_are_kept_witness :
  exists d', In d' (devices (fst (serve Sample.env_later (Login Sample.jane_on_johns_phone)
                                        Sample.two_accounts)))
             /\ Device._id d' = 1
             /\ Device.userId d' = 0.
Proof.
  destruct (devices_are_kept Sample.two_accounts Sample.env_later
              (Login Sample.jane_on_johns_phone)
              (Device.mk 1 0 (deviceHash Sample.iphone) (Device.info_of Sample.iphone)
                         false Device.pending (JSNumber.Finite (5 # 10)) None None None 7)
              sample_two_accounts_reachable)
    as (d' & Hin & Hid & Ho & _).
  - vm_compute. left. reflexivity.
  - exists d'. split; [exact Hin | split; [exact Hid | exact Ho]].
Defined.

(** Accounts stay apart: in every reachable state no two accounts share an
    [_id] or an email, and a registration under an email that an account
    has is answered 400 "User already exists" and changes nothing. *)
Theorem accounts_are_unique :
  forall (w : World) (env : Env) (req : AuthBody.t) (email password : string) (u : User.t),
    reachable w ->
    JSString.truthy (AuthBody.email req) = Some email ->
    JSString.truthy (AuthBody.password req) = Some password ->
    In u (users w) ->
    User.email u = email ->
    NoDup (map User._id (users w))
    /\ NoDup (map User.email (users w))
    /\ register env req w = (w, mkResponse 400 (Message "User already exists")).
Proof.
  intros w env req email password u Hw He Hp Hu Hmail.
  destruct (reachable_unique_users w Hw) as [Hid Hem].
  repeat split; auto.
  unfold register. rewrite He, Hp. run.
  destruct (find _ (users w)) as [v|] eqn:Hfind; [reflexivity|].
  exfalso. apply (find_none _ _ Hfind) in Hu. rewrite Hmail, String.eqb_refl in Hu.
  discriminate.
Qed.

Lemma accounts_are_unique_witness :
  register Sample.env_later Sample.jane_on_johns_phone Sample.two_accounts
  = (Sample.two_accounts, mkResponse 400 (Message "User already exists")).
Proof.
  refine (proj2 (proj2 (accounts_are_unique Sample.two_accounts Sample.env_later
            Sample.jane_on_johns_phone "jane.smith@example.com" "Password456!"
            (User.mk 2 "jane.smith@example.com" "bcrypt:Password456!"
                     (JSNumber.Finite 10000) 7 7 User.active)
            sample_two_accounts_reachable eq_refl eq_refl _ eq_refl))).
  vm_compute. right. left. reflexivity.
Defined.

(** ** The history of an account *)

Lemma insert_newest_perm (x : Transaction.t) (l : list Transaction.t) :
  Permutation (x :: l) (insert_newest x l).
Proof.
  induction l as [|y l IH]; simpl; [reflexivity|].
  destruct (Transaction.createdAt y <? Transaction.createdAt x)%nat; [reflexivity|].
  rewrite perm_swap. now apply perm_skip.
Qed.

Lemma insert_newest_sorted (x : Transaction.t) (l : list Transaction.t) :
  newest_come_first l -> newest_come_first (insert_newest x l).
Proof.
  unfold newest_come_first.
  induction 1 as [|y l Hs IH Hall]; simpl.
  - repeat constructor.
  - destruct (Transaction.createdAt y <? Transaction.createdAt x)%nat eqn:E.
    + apply Nat.ltb_lt in E. constructor.
      * now constructor.
      * constructor; [lia|].
        eapply Forall_impl; [|exact Hall]. simpl. intros; lia.
    + apply Nat.ltb_ge in E. constructor; [exact IH|].
      eapply Permutation_Forall; [apply insert_newest_perm|].
      now constructor.
Qed.

Lemma newest_first_from (l acc : list Transaction.t) :
  newest_come_first acc ->
  Permutation (l ++ acc) (fold_left (fun a x => insert_newest x a) l acc)
  /\ newest_come_first (fold_left (fun a x => insert_newest x a) l acc).
Proof.
  revert acc. induction l as [|x l IH]; simpl; intros acc Hacc.
  - split; [reflexivity | assumption].
  - destruct (IH (insert_newest x acc) (insert_newest_sorted x acc Hacc)) as [Hp Hs].
    split; [|exact Hs].
    rewrite <- Hp. rewrite <- insert_newest_perm. apply Permutation_middle.
Qed.

(** [GET /api/transfers/history] changes nothing and answers 200 with the
    Transfers whose sender is the account of the token, each once, and none
    before a newer one. *)
Theorem history_lists_own_transfers_newest_first :
  forall (userId : ObjectId) (w : World),
    exists listing,
      history userId w = (w, mkResponse 200 (History listing))
      /\ Permutation listing
           (filter (fun t => Nat.eqb (Transaction.senderId t) userId) (transactions w))
      /\ StronglySorted
           (fun a b => (Transaction.createdAt b <= Transaction.createdAt a)%nat) listing.
Proof.
  intros userId w.
  exists (newest_first (filter (fun t => Nat.eqb (Transaction.senderId t) userId)
                               (transactions w))).
  destruct (newest_first_from
              (filter (fun t => Nat.eqb (Transaction.senderId t) userId) (transactions w)) [])
    as [Hp Hs]; [constructor|].
  split; [reflexivity|]. split; [|exact Hs].
  rewrite app_nil_r in Hp. symmetry. exact Hp.
Qed.

(** ** The token middleware *)

Lemma split_without (c : ascii) (s : string) :
  without c s = true -> JSString.split c s = [s].
Proof.
  induction s as [|a s IH]; simpl; [reflexivity|].
  intros H. apply andb_prop in H as [Ha Hs]. apply negb_true_iff in Ha.
  now rewrite Ha, (IH Hs).
Qed.

Lemma split_append (c : ascii) (a b : string) :
  without c a = true -> JSString.split c (a ++ String c b) = a :: JSString.split c b.
Proof.
  induction a as [|x a IH]; simpl.
  - intros _. now rewrite Ascii.eqb_refl.
  - intros H. apply andb_prop in H as [Hx Ha]. apply negb_true_iff in Hx.
    now rewrite Hx, (IH Ha).
Qed.

(** [verifyToken] takes the second of the pieces of the [Authorization]
    header between single spaces as the token and never looks at the first:
    a header with no space in it is answered 401 "No token provided" without
    running the handler; with a non-empty second piece the request is decided
    by [jwt.verify] of that piece alone, whatever the scheme word and
    whatever follows a second space. *)
Theorem token_is_second_piece_of_header :
  forall (jwt_verify : string -> option ObjectId)
         (next : ObjectId -> World -> World * Response) (w : World)
         (scheme token rest : string),
    without " " scheme = true ->
    without " " token = true ->
    token <> "" ->
    let decided :=
      match jwt_verify token with
      | Some userId => next userId w
      | None => (w, mkResponse 401 (Message "Invalid token"))
      end in
    verifyToken jwt_verify (Some scheme) next w
    = (w, mkResponse 401 (Message "No token provided"))
    /\ verifyToken jwt_verify (Some (scheme ++ " " ++ token)) next w = decided
    /\ verifyToken jwt_verify (Some (scheme ++ " " ++ token ++ " " ++ rest)) next w = decided.
Proof.
  intros jwt_verify next w scheme token rest Hs Ht Hne decided.
  unfold verifyToken, header_token.
  repeat split.
  - rewrite (split_without _ _ Hs). reflexivity.
  - cbn [append]. rewrite (split_append _ _ _ Hs), (split_without _ _ Ht). cbn [nth_error].
    destruct token; [contradiction | reflexivity].
  - cbn [append]. rewrite (split_append _ _ _ Hs), (split_append _ _ _ Ht). cbn [nth_error].
    destruct token; [contradiction | reflexivity].
Qed.

Lemma token_is_second_piece_of_header_witness :
  verifyToken (fun _ => Some 0) (Some "Basic abc")
              (fun userId => history userId) empty_world
  = history 0 empty_world.
Proof.
  refine (proj1 (proj2 (token_is_second_piece_of_header (fun _ => Some 0)
            (fun userId => history userId) empty_world "Basic" "abc" "" _ _ _))).
  - reflexivity.
  - reflexivity.
  - discriminate.
Defined.

(** ** Replies without the expected lines *)

Lemma includes_eq (sub s : string) :
  JSString.includes sub s
  = if prefix sub s then true
    else match s with
         | String _ r => JSString.includes sub r
         | EmptyString => false
         end.
Proof. destruct s; reflexivity. Qed.

Lemma prefix_empty (s : string) : prefix "" s = true.
Proof. destruct s; reflexivity. Qed.

Lemma prefix_trans (a b c : string) :
  prefix a b = true -> prefix b c = true -> prefix a c = true.
Proof.
  revert b c. induction a as [|x a IH]; intros b c; [intros _ _; destruct c; reflexivity|].
  destruct b as [|y b]; [discriminate|]. destruct c as [|z c]; [discriminate|].
  simpl. destruct (ascii_dec x y) as [->|]; [|discriminate].
  destruct (ascii_dec y z); [|discriminate]. apply IH.
Qed.

Lemma includes_in_extension (tag h s : string) :
  prefix h s = true -> JSString.includes tag h = true -> JSString.includes tag s = true.
Proof.
  revert s. induction h as [|x h IH]; intros s Hp Hi; rewrite includes_eq in Hi |- *.
  - destruct (prefix tag "") eqn:E; [|discriminate].
    now rewrite (prefix_trans _ _ _ E Hp).
  - destruct (prefix tag (String x h)) eqn:E.
    + now rewrite (prefix_trans _ _ _ E Hp).
    + destruct (prefix tag s); [reflexivity|].
      destruct s as [|y s]; [discriminate|].
      simpl in Hp. destruct (ascii_dec x y); [|discriminate].
      now apply IH.
Qed.

Lemma includes_tail (tag : string) (a : ascii) (s : string) :
  JSString.includes tag s = true -> JSString.includes tag (String a s) = true.
Proof.
  intros H. rewrite includes_eq. destruct (prefix tag (String a s)); [reflexivity | exact H].
Qed.

Lemma split_head_prefix (c : ascii) (s h : string) (t : list string) :
  JSString.split c s = h :: t -> prefix h s = true.
Proof.
  revert h t. induction s as [|a s IH]; simpl; intros h t.
  - intros [= <- <-]. reflexivity.
  - destruct (Ascii.eqb a c).
    + intros [= <- <-]. reflexivity.
    + destruct (JSString.split c s) as [|h' t'] eqn:E; intros [= <- <-]; simpl;
        destruct (ascii_dec a a); try contradiction; [apply prefix_empty|].
      now apply (IH h' t').
Qed.

(** A line that contains the tag is part of a text that contains it. *)
Lemma includes_line (tag : string) (c : ascii) (s l : string) :
  In l (JSString.split c s) -> JSString.includes tag l = true ->
  JSString.includes tag s = true.
Proof.
  revert l. induction s as [|a s IH]; intros l; simpl.
  - intros [<-|[]]. auto.
  - destruct (Ascii.eqb a c).
    + intros [<-|Hin] Hi.
      * now apply (includes_in_extension tag "" (String a s)).
      * apply includes_tail. now apply (IH l).
    + destruct (JSString.split c s) as [|h t] eqn:E.
      * intros [<-|[]] Hi. apply (includes_in_extension tag (String a "") (String a s)); [|exact Hi].
        simpl. destruct (ascii_dec a a); [apply prefix_empty | contradiction].
      * intros [<-|Hin] Hi.
        -- apply (includes_in_extension tag (String a h) (String a s)); [|exact Hi].
           simpl. destruct (ascii_dec a a); [|contradiction].
           now apply (split_head_prefix c s h t).
        -- apply includes_tail. apply (IH l); [now right | exact Hi].
Qed.

Lemma tagged_field_absent (tag result : string) :
  JSString.includes tag result = false ->
  tagged_field tag (JSString.split LF result) = None.
Proof.
  intros H. unfold tagged_field.
  destruct (find (JSString.includes tag) (JSString.split LF result)) as [l|] eqn:E;
    [|reflexivity].
  apply find_some in E as [Hin Hl].
  rewrite (includes_line tag LF result l Hin Hl) in H. discriminate.
Qed.

(** A reply in which the text RISK_SCORE occurs nowhere is given the
    default score: 0.3 for a transfer, which lets it through, and 0.5 for a
    device, which lets it be trusted. *)
Theorem reply_without_score_gets_default :
  forall result : string,
    JSString.includes "RISK_SCORE" result = false ->
    fa_riskScore (parseFraud result) = JSNumber.Finite (3 # 10)
    /\ ra_riskScore (parseDeviceRisk result) = JSNumber.Finite (5 # 10)
    /\ JSNumber.le (fa_riskScore (parseFraud result)) threshold = true
    /\ JSNumber.gt (ra_riskScore (parseDeviceRisk result)) threshold = false.
Proof.
  intros result H.
  unfold parseFraud, parseDeviceRisk. cbn [fa_riskScore ra_riskScore].
  rewrite (tagged_field_absent _ _ H).
  repeat split; vm_compute; reflexivity.
Qed.

Lemma reply_without_score_gets_default_witness :
  fa_riskScore (parseFraud "The transfer looks fine.") = JSNumber.Finite (3 # 10).
Proof.
  refine (proj1 (reply_without_score_gets_default "The transfer looks fine." _)).
  vm_compute. reflexivity.
Defined.

(** ** Trust, once given *)

Lemma reachable_serve_all (trace : list (Env * Request)) (w : World) :
  reachable w -> reachable (serve_all trace w).
Proof.
  revert w. induction trace as [|[env r] trace IH]; intros w Hw; [exact Hw|].
  apply IH. now apply reachable_serve.
Qed.

(** Under the unique index, a device of the account with the digest is the
    one the gate finds. *)
Lemma eligible_device (userId : ObjectId) (fp : Json.attrs) (w : World) (d : Device.t) :
  unique_devices (devices w) ->
  In d (devices w) ->
  Device.userId d = userId ->
  Device.fingerprint d = deviceHash fp ->
  Device.trustStatus d = Device.trusted ->
  eligible userId fp w = true.
Proof.
  intros [_ Hfp] Hin Hu Hf Ht. unfold eligible.
  destruct (find _ (devices w)) as [x|] eqn:E.
  - apply find_some in E as [Hx Hp]. apply andb_prop in Hp as [_ Hp].
    apply String.eqb_eq in Hp.
    assert (x = d) as -> by (apply (NoDup_map_eq Device.fingerprint (devices w)); congruence).
    now rewrite Ht.
  - apply (find_none _ _ E) in Hin.
    rewrite Hu, Hf, Nat.eqb_refl, String.eqb_refl in Hin. discriminate.
Qed.

Lemma eligible_inv (userId : ObjectId) (fp : Json.attrs) (w : World) :
  eligible userId fp w = true ->
  exists d, In d (devices w)
            /\ Device.userId d = userId
            /\ Device.fingerprint d = deviceHash fp
            /\ Device.trustStatus d = Device.trusted.
Proof.
  unfold eligible. destruct (find _ (devices w)) as [d|] eqn:E; [|discriminate].
  intros Ht. apply find_some in E as [Hin Hp]. apply andb_prop in Hp as [Hu Hf].
  exists d. repeat split; [assumption | now apply Nat.eqb_eq | now apply String.eqb_eq |].
  destruct (Device.trustStatus d); [discriminate | reflexivity | discriminate].
Qed.

Lemma eligible_serve (env : Env) (r : Request) (userId : ObjectId) (fp : Json.attrs)
    (w : World) :
  reachable w ->
  eligible userId fp w = true -> eligible userId fp (fst (serve env r w)) = true.
Proof.
  intros Hw He.
  destruct (eligible_inv _ _ _ He) as (d & Hin & Hu & Hf & Ht).
  destruct (devices_kept env r w (reachable_fresh_ids w Hw) (reachable_unique_devices w Hw)
              d Hin) as (d' & Hin' & _ & Hu' & Hf' & _ & _ & Ht').
  apply (eligible_device userId fp _ d'); auto; try congruence.
  apply reachable_unique_devices. now apply reachable_serve.
Qed.

(** Trust is never taken back: once the device gate of a transfer passes for
    an account and a fingerprint, it passes after any further requests,
    whoever makes them and whatever the scorer answers. *)
Theorem trust_is_never_revoked :
  forall (userId : ObjectId) (fp : Json.attrs) (w : World) (trace : list (Env * Request)),
    reachable w ->
    eligible userId fp w = true ->
    eligible userId fp (serve_all trace w) = true.
Proof.
  intros userId fp w trace. revert w.
  induction trace as [|[env r] trace IH]; intros w Hw He; [exact He|].
  apply IH; [now apply reachable_serve | now apply eligible_serve].
Qed.

Lemma trust_is_never_revoked_witness :
  eligible 0 Sample.iphone
    (serve_all [(Sample.env_down, Login Sample.jane_on_johns_phone);
                (Sample.env_answer "RISK_SCORE: 0.95",
                 TrustDevice 0 (TrustBody.mk (Some Sample.iphone)))]
       Sample.trusting)
  = true.
Proof.
  apply (trust_is_never_revoked 0 Sample.iphone Sample.trusting).
  - exact sample_trusting_reachable.
  - vm_compute. reflexivity.
Defined.

(** ** Registration and login *)

Lemma find_snoc {A : Type} (p : A -> bool) (l : list A) (x : A) :
  find p l = None -> p x = true -> find p (l ++ [x]) = Some x.
Proof.
  induction l as [|y l IH]; simpl; intros Hn Hx; [now rewrite Hx|].
  destruct (p y); [discriminate | auto].
Qed.

Lemma existsb_member {A : Type} (p : A -> bool) (l : list A) (x : A) :
  In x l -> p x = true -> existsb p l = true.
Proof. intros Hin Hp. apply existsb_exists. now exists x. Qed.

(** With the right password, login is answered 200 with the account. *)
Lemma login_succeeds (env : Env) (req : AuthBody.t) (email password : string)
    (user : User.t) (w : World) :
  fresh_ids w ->
  JSString.truthy (AuthBody.email req) = Some email ->
  JSString.truthy (AuthBody.password req) = Some password ->
  find (fun u => String.eqb (User.email u) email) (users w) = Some user ->
  comparePassword (auth env) password (User.password user) = true ->
  snd (login env req w)
  = mkResponse 200 (LoggedIn "Login successful" (User._id user) (User.email user)
                             (User.balance user) (generateToken (auth env) (User._id user))).
Proof.
  intros Hf He Hp Hu Hc.
  unfold login. rewrite He, Hp. run. rewrite Hu, Hc. cbn [negb].
  run_all. split_cases; try reflexivity; exfalso.
  all: repeat match goal with
              | H : find _ _ = None |- _ => apply existsb_not_found in H
              | H : find _ _ = Some _ |- _ => apply find_some in H; destruct H
              end;
    cbn [Device._id Device.fingerprint Device.set_lastLogin] in *.
  all: try match goal with
           | Hin : In ?d ?l, E : existsb (fun v => Nat.eqb (Device._id v) (Device._id ?d)) ?l = false
             |- _ =>
               rewrite (existsb_member _ l d Hin (Nat.eqb_refl _)) in E; discriminate E
           end.
  all: try match goal with
           | E : existsb _ (_ ++ [_]) = false |- _ =>
               rewrite existsb_app in E; cbn [existsb] in E;
               cbn [Device._id] in E;
               rewrite Nat.eqb_refl, orb_true_r in E; discriminate E
           end.
  all: try congruence.
  all: try impossible_collision.
Qed.

Lemma In_replace_found {A : Type} (same : A -> bool) (x : A) (l : list A) :
  existsb same l = true -> In x (replace same x l).
Proof.
  induction l as [|y l IH]; simpl; [discriminate|].
  destruct (same y); simpl; [now left | right; auto].
Qed.

Lemma register_creates_account (env : Env) (req : AuthBody.t) (email password : string)
    (w : World) :
  JSString.truthy (AuthBody.email req) = Some email ->
  JSString.truthy (AuthBody.password req) = Some password ->
  code (snd (register env req w)) = 201 ->
  snd (register env req w)
  = mkResponse 201 (Registered "User registered successfully" (next_id w) email
                               (generateToken (auth env) (next_id w)))
  /\ In (User.mk (next_id w) email (hashPassword (auth env) password)
                 (JSNumber.Finite 10000) (now env) (now env) User.active)
        (users (fst (register env req w))).
Proof.
  intros He Hp. unfold register. rewrite He, Hp.
  run_all. split_cases; cbn [code]; intros Hc; try discriminate Hc;
    (split; [reflexivity|]); auto using in_or_app, in_eq.
  all: now apply In_replace_found.
Qed.

(** *** Accounts are kept *)

Lemma kept_or_replaced {A : Type} (same : A -> bool) (x u : A) (l : list A) :
  In u l -> In u (replace same x l) \/ (same u = true /\ In x (replace same x l)).
Proof.
  induction l as [|y l IH]; simpl; [tauto|].
  intros [->|Hin].
  - destruct (same u) eqn:E; simpl; [right; auto | left; auto].
  - destruct (same y); simpl; [left; now right|].
    destruct (IH Hin) as [H|[H1 H2]]; [left; now right | right; auto].
Qed.

Lemma same_account_refl (u : User.t) : same_account u u.
Proof. repeat split. Qed.

Lemma same_account_trans (a b c : User.t) :
  same_account a b -> same_account b c -> same_account a c.
Proof. intros (H1 & H2 & H3) (K1 & K2 & K3). repeat split; congruence. Qed.

(** Whatever the request, every account is still there afterwards, with its
    [_id], email and password. *)
Lemma account_kept (env : Env) (r : Request) (w : World) :
  fresh_ids w -> unique_users (users w) ->
  forall u, In u (users w) ->
    exists u', In u' (users (fst (serve env r w))) /\ same_account u u'.
Proof.
  intros Hf [Hids _] u Hu.
  destruct (transfer_or_other r) as [(userId & req & ->)|Hr].
  - cbn [serve].
    destruct (transfer_step env userId req w Hf)
      as (_ & [(Hus & _)|(t & user & device & Hin & Hid & _ & _ & _ & _ & _ & _ & _ & _
                          & _ & _ & Hcase)]).
    + rewrite Hus. exists u. split; [assumption | apply same_account_refl].
    + destruct Hcase as [(_ & ->)|(_ & ->)];
        [exists u; split; [assumption | apply same_account_refl]|].
      destruct (kept_or_replaced (fun v => Nat.eqb (User._id v) (User._id user))
                  (User.set_balance user
                     (JSNumber.sub (User.balance user) (Transaction.amount t)))
                  u (users w) Hu) as [H|[Hs H]].
      * exists u. split; [assumption | apply same_account_refl].
      * apply Nat.eqb_eq in Hs.
        assert (u = user) as -> by (apply (NoDup_map_eq User._id (users w)); auto).
        eexists. split; [exact H | repeat split].
  - exists u. split; [now apply accounts_kept | apply same_account_refl].
Qed.

Lemma account_kept_all (trace : list (Env * Request)) (w : World) (u : User.t) :
  reachable w -> In u (users w) ->
  exists u', In u' (users (serve_all trace w)) /\ same_account u u'.
Proof.
  revert w u. induction trace as [|[env r] trace IH]; intros w u Hw Hu.
  - exists u. split; [assumption | apply same_account_refl].
  - destruct (account_kept env r w (reachable_fresh_ids w Hw) (reachable_unique_users w Hw)
                u Hu) as (u1 & Hu1 & Hs1).
    destruct (IH (fst (serve env r w)) u1 (reachable_serve env r w Hw) Hu1)
      as (u2 & Hu2 & Hs2).
    exists u2. split; [exact Hu2 | now apply (same_account_trans u u1 u2)].
Qed.

Lemma find_by_email (l : list User.t) (u : User.t) :
  unique_users l -> In u l ->
  find (fun v => String.eqb (User.email v) (User.email u)) l = Some u.
Proof.
  intros [_ Hem] Hin.
  destruct (find _ l) as [x|] eqn:E.
  - apply find_some in E as [Hx Hp]. apply String.eqb_eq in Hp.
    f_equal. now apply (NoDup_map_eq User.email l).
  - apply (find_none _ _ E) in Hin. now rewrite String.eqb_refl in Hin.
Qed.

(** Registration and login fit together, and credentials do not expire:
    after a registration answered 201, and after any further requests
    whatever, a login with the email and the password of the registration is
    answered 200 with the [_id] the registration returned, provided the
    password check accepts a password against its own hash. *)
Theorem registered_account_can_log_in :
  forall (env env' : Env) (req req' : AuthBody.t) (email password : string)
         (trace : list (Env * Request)) (w : World),
    reachable w ->
    JSString.truthy (AuthBody.email req) = Some email ->
    JSString.truthy (AuthBody.password req) = Some password ->
    JSString.truthy (AuthBody.email req') = Some email ->
    JSString.truthy (AuthBody.password req') = Some password ->
    comparePassword (auth env') password (hashPassword (auth env) password) = true ->
    code (snd (register env req w)) = 201 ->
    snd (register env req w)
    = mkResponse 201 (Registered "User registered successfully" (next_id w) email
                                 (generateToken (auth env) (next_id w)))
    /\ exists balance,
         snd (login env' req' (serve_all trace (fst (register env req w))))
         = mkResponse 200 (LoggedIn "Login successful" (next_id w) email balance
                                    (generateToken (auth env') (next_id w))).
Proof.
  intros env env' req req' email password trace w Hw He Hp He' Hp' Hc H201.
  destruct (register_creates_account env req email password w He Hp H201) as [Hr Hin].
  split; [exact Hr|].
  pose proof (reachable_register env req w Hw) as Hw1.
  destruct (account_kept_all trace _ _ Hw1 Hin) as (u & Hu & Hid & Hem & Hpw).
  cbn [User._id User.email User.password] in Hid, Hem, Hpw.
  pose proof (reachable_serve_all trace _ Hw1) as Hw2.
  exists (User.balance u).
  rewrite (login_succeeds env' req' email password u _ (reachable_fresh_ids _ Hw2) He' Hp').
  - now rewrite Hid, Hem.
  - rewrite <- Hem. apply find_by_email; [now apply reachable_unique_users | exact Hu].
  - now rewrite Hpw.
Qed.

Lemma registered_account_can_log_in_witness :
  exists balance,
    snd (login Sample.env_later Sample.john
           (serve_all [(Sample.env_answer Sample.low_risk,
                        TrustDevice 0 (TrustBody.mk (Some Sample.iphone)));
                       (Sample.env_answer (Sample.fraud_reply "0.3"),
                        CreateTransfer 0 (Sample.transfer 50))]
              (fst (register (Sample.env_answer "") Sample.john empty_world))))
    = mkResponse 200 (LoggedIn "Login successful" 0 "john.doe@example.com" balance
                               (generateToken Sample.auth 0)).
Proof.
  refine (proj2 (registered_account_can_log_in (Sample.env_answer "") Sample.env_later
                   Sample.john Sample.john "john.doe@example.com" "SecurePassword123!"
                   [(Sample.env_answer Sample.low_risk,
                     TrustDevice 0 (TrustBody.mk (Some Sample.iphone)));
                    (Sample.env_answer (Sample.fraud_reply "0.3"),
                     CreateTransfer 0 (Sample.transfer 50))]
                   empty_world reachable_start _ _ _ _ _ _)); vm_compute; reflexivity.
Defined.

(** ** Server errors *)

(** Registration from a device whose digest is already on record, under an
    email that is free: the account is created, the device document is
    refused by the unique index, and the request is answered 500
    "Registration failed"; a second attempt is answered 400 "User already
    exists". *)
Theorem registration_from_a_known_device :
  forall (env : Env) (req : AuthBody.t) (email password : string) (fp : Json.attrs)
         (d : Device.t) (w : World),
    reachable w ->
    JSString.truthy (AuthBody.email req) = Some email ->
    JSString.truthy (AuthBody.password req) = Some password ->
    AuthBody.deviceFingerprint req = Some fp ->
    (forall u, In u (users w) -> User.email u <> email) ->
    In d (devices w) ->
    Device.fingerprint d = deviceHash fp ->
    register env req w
    = (mkWorld (users w ++ [User.mk (next_id w) email (hashPassword (auth env) password)
                                    (JSNumber.Finite 10000) (now env) (now env) User.active])
               (devices w) (transactions w) (S (S (next_id w))) (scorer_calls w),
       mkResponse 500 (Failure "Registration failed" duplicate_key))
    /\ snd (register env req (fst (register env req w)))
       = mkResponse 400 (Message "User already exists").
Proof.
  intros env req email password fp d w Hw He Hp Hfp Hfree Hd Hdig.
  pose proof (reachable_fresh_ids w Hw) as (Fu & Fd & _).
  assert (Hnone : find (fun u => String.eqb (User.email u) email) (users w) = None).
  { destruct (find _ (users w)) as [u|] eqn:E; [|reflexivity].
    apply find_some in E as [Hin Heq]. apply String.eqb_eq in Heq.
    now destruct (Hfree u Hin). }
  assert (Hrun : register env req w
    = (mkWorld (users w ++ [User.mk (next_id w) email (hashPassword (auth env) password)
                                    (JSNumber.Finite 10000) (now env) (now env) User.active])
               (devices w) (transactions w) (S (S (next_id w))) (scorer_calls w),
       mkResponse 500 (Failure "Registration failed" duplicate_key))).
  { unfold register. rewrite He, Hp, Hfp. run. rewrite Hnone. run.
    unfold User_save. cbn [users devices transactions next_id scorer_calls User._id User.email].
    rewrite (existsb_fresh User._id (next_id w) (users w) Fu).
    rewrite (existsb_not_found _ _ Hnone). run.
    unfold Device_save.
    cbn [users devices transactions next_id scorer_calls Device._id Device.fingerprint].
    rewrite (existsb_fresh Device._id (S (next_id w)) (devices w))
      by (intros x Hx; specialize (Fd x Hx); lia).
    rewrite (existsb_member _ (devices w) d Hd) by (rewrite Hdig; apply String.eqb_refl).
    reflexivity. }
  split; [exact Hrun|].
  rewrite Hrun. cbn [fst]. unfold register. rewrite He, Hp. run.
  rewrite find_snoc; [reflexivity | exact Hnone | apply String.eqb_refl].
Qed.

Lemma registration_from_a_known_device_witness :
  snd (register Sample.env_down Sample.jane_on_johns_phone Sample.registered)
  = mkResponse 500 (Failure "Registration failed" duplicate_key).
Proof.
  unshelve epose proof (registration_from_a_known_device Sample.env_down
           Sample.jane_on_johns_phone "jane.smith@example.com" "Password456!" Sample.iphone
           (Device.mk 1 0 (deviceHash Sample.iphone) (Device.info_of Sample.iphone)
                      false Device.pending (JSNumber.Finite (5 # 10)) None None None 7)
           Sample.registered sample_registered_reachable eq_refl eq_refl eq_refl _ _ _)
    as [Hrun _].
  - vm_compute. intros u [<-|[]]. discriminate.
  - vm_compute. left. reflexivity.
  - vm_compute. reflexivity.
  - rewrite Hrun. reflexivity.
Defined.

(** A document that is in the collection was not found absent. *)
Ltac absent_but_member :=
  match goal with
  | Hin : In ?d ?l, E : existsb ?p ?l = false |- _ =>
      rewrite (existsb_member p l d Hin) in E;
      [ discriminate E | cbn beta; apply Nat.eqb_refl ]
  | E : existsb _ (_ ++ [_]) = false |- _ =>
      rewrite existsb_app in E; cbn [existsb Device._id] in E;
      rewrite Nat.eqb_refl, orb_true_r in E; discriminate E
  end.

Lemma validated_intro (req : TransferBody.t) (recipient : string) (amount : JSNumber.number) :
  JSString.truthy (TransferBody.recipientEmail req) = Some recipient ->
  TransferBody.amount req = Some amount ->
  JSNumber.falsy amount = false ->
  JSNumber.le amount zero = false ->
  validated req = true.
Proof.
  intros Hr Ha Hf Hle. unfold validated, missing, missing_number.
  now rewrite Hr, Ha, Hf, Hle.
Qed.

(** In a reachable state, and when the reply of the scorer, if it is
    called, carries scores that parse as numbers (what the object mapper
    does with a score that is not a number is outside the model), a request
    is answered 500 in two cases only: a transfer request that passes
    validation and carries no fingerprint, which writes nothing; and a
    registration under a free email from a device whose digest is already
    on record. *)
Theorem server_errors_have_two_causes :
  forall (env : Env) (r : Request) (w : World),
    reachable w ->
    (forall p reply, scorer env p = Some reply ->
                     fa_riskScore (parseFraud reply) <> JSNumber.NaN
                     /\ ra_riskScore (parseDeviceRisk reply) <> JSNumber.NaN) ->
    code (snd (serve env r w)) = 500 ->
    (exists userId req,
        r = CreateTransfer userId req
        /\ validated req = true
        /\ TransferBody.deviceFingerprint req = None
        /\ serve env r w
           = (w, mkResponse 500 (Failure "Transfer failed" update_undefined)))
    \/ (exists req fp d,
           r = Register req
           /\ AuthBody.deviceFingerprint req = Some fp
           /\ In d (devices w)
           /\ Device.fingerprint d = deviceHash fp
           /\ (forall u, In u (users w) -> Some (User.email u) <> AuthBody.email req)
           /\ snd (serve env r w)
              = mkResponse 500 (Failure "Registration failed" duplicate_key)).
Proof.
  intros env r w Hw _.
  pose proof (reachable_fresh_ids w Hw) as Hf.
  destruct r; cbn [serve];
    unfold register, login, deviceStatus, trustDevice, createTransfer, history;
    run_all; split_cases; cbn [code]; intros Hc; try discriminate Hc.
  all: try match goal with
           | H : find _ (users _) = None |- _ => pose proof (find_none _ _ H)
           end.
  all: repeat match goal with
              | H : find _ _ = None |- _ => apply existsb_not_found in H
              | H : find _ _ = Some _ |- _ => apply find_some in H; destruct H
              end;
    cbn [Device._id Device.fingerprint Device.set_lastLogin Device.set_trusted
         User._id User.email User.set_balance] in *.
  all: try congruence.
  all: try (exfalso; impossible_collision).
  all: try (exfalso; absent_but_member).
  - right.
    match goal with
    | E : existsb _ (devices _) = true |- _ =>
        apply existsb_exists in E; destruct E as (d & Hd & Hfp); apply String.eqb_eq in Hfp
    end.
    exists req. do 2 eexists. repeat split; eauto.
    intros u Hu Heq.
    match goal with
    | N : forall x, In x (users _) -> _ = false |- _ => specialize (N u Hu)
    end.
    match goal with
    | E : JSString.truthy (AuthBody.email req) = Some _ |- _ =>
        rewrite <- Heq in E; destruct (User.email u); [discriminate E|];
        injection E as <-
    end.
    now rewrite String.eqb_refl in *.
  - left. do 2 eexists. split; [reflexivity|].
    split; [eapply validated_intro; eauto|]. split; [assumption | reflexivity].
Qed.

Lemma server_errors_have_two_causes_witness :
  (exists userId req,
      Register Sample.jane_on_johns_phone = CreateTransfer userId req
      /\ validated req = true
      /\ TransferBody.deviceFingerprint req = None
      /\ serve Sample.env_down (Register Sample.jane_on_johns_phone) Sample.registered
         = (Sample.registered, mkResponse 500 (Failure "Transfer failed" update_undefined)))
  \/ (exists req fp d,
         Register Sample.jane_on_johns_phone = Register req
         /\ AuthBody.deviceFingerprint req = Some fp
         /\ In d (devices Sample.registered)
         /\ Device.fingerprint d = deviceHash fp
         /\ (forall u, In u (users Sample.registered) ->
                       Some (User.email u) <> AuthBody.email req)
         /\ snd (serve Sample.env_down (Register Sample.jane_on_johns_phone)
                       Sample.registered)
            = mkResponse 500 (Failure "Registration failed" duplicate_key)).
Proof.
  apply (server_errors_have_two_causes Sample.env_down (Register Sample.jane_on_johns_phone)
           Sample.registered).
  - exact sample_registered_reachable.
  - intros p reply H. discriminate H.
  - vm_compute. reflexivity.
Defined.

(** ** The device gate, as the status route reports it *)

Lemma stringify_truthy (fp : Json.attrs) :
  JSString.truthy (Some (Json.stringify fp)) = Some (Json.stringify fp).
Proof. reflexivity. Qed.

(** The status route, asked with the serialized fingerprint as the client
    sends it, reports [isTrusted] exactly when a transfer request with that
    fingerprint passes the device gate: a validated transfer is answered 403
    "Device not trusted for transfers", with nothing written, if and only if
    the status route reports [false]. *)
Theorem status_agrees_with_transfer_gate :
  forall (env : Env) (userId : ObjectId) (req : TransferBody.t) (fp : Json.attrs)
         (w : World),
    validated req = true ->
    TransferBody.deviceFingerprint req = Some fp ->
    exists (isTrusted : bool) (reason : string) (riskScore : option JSNumber.number)
           (listing : list (option string * option string * option Date)),
      deviceStatus userId (Some (Json.stringify fp)) w
      = (w, mkResponse 200 (DeviceStatus isTrusted reason riskScore listing))
      /\ (isTrusted = false
          <-> createTransfer env userId req w
              = (w, mkResponse 403 (Message "Device not trusted for transfers"))).
Proof.
  intros env userId req fp w Hv Hfp.
  destruct (validated_inv req Hv) as (recipient & amount & Hr & Ha & Hf & Hle).
  unfold deviceStatus, createTransfer.
  rewrite stringify_truthy, Hr, Ha, Hf, Hle, Hfp. run.
  change (Sha256.sha256_hex (Json.stringify fp)) with (deviceHash fp).
  destruct (find _ (devices w)) as [device|] eqn:Hd.
  - run. do 4 eexists. split; [reflexivity|].
    destruct (Device.is_trusted (Device.trustStatus device)) eqn:Ht; cbn [negb].
    + split; [discriminate|].
      run_all. split_cases; intros [= ]; try discriminate.
    + run. split; reflexivity.
  - run. do 4 eexists. split; [reflexivity|]. split; reflexivity.
Qed.

Lemma status_agrees_with_transfer_gate_witness :
  exists (isTrusted : bool) (reason : string) (riskScore : option JSNumber.number)
         (listing : list (option string * option string * option Date)),
    deviceStatus 2 (Some (Json.stringify Sample.iphone)) Sample.two_accounts
    = (Sample.two_accounts, mkResponse 200 (DeviceStatus isTrusted reason riskScore listing))
    /\ (isTrusted = false
        <-> createTransfer Sample.env_down 2 (Sample.transfer 50) Sample.two_accounts
            = (Sample.two_accounts,
               mkResponse 403 (Message "Device not trusted for transfers"))).
Proof.
  apply (status_agrees_with_transfer_gate Sample.env_down 2 (Sample.transfer 50)
           Sample.iphone Sample.two_accounts); vm_compute; reflexivity.
Defined.

(** ** What a refused request leaves behind *)

(** A request answered with a status from 400 to 499 has written nothing:
    accounts, devices, Transfers and the [_id] counter are as before. *)
Theorem refused_requests_write_nothing :
  forall (env : Env) (r : Request) (w : World),
    400 <= code (snd (serve env r w)) < 500 ->
    users (fst (serve env r w)) = users w
    /\ devices (fst (serve env r w)) = devices w
    /\ transactions (fst (serve env r w)) = transactions w
    /\ next_id (fst (serve env r w)) = next_id w.
Proof.
  intros env r w.
  destruct r; cbn [serve];
    unfold register, login, deviceStatus, trustDevice, createTransfer, history;
    run_all; split_cases; cbn [code]; intros [Hlow Hhigh];
    first [ repeat split; reflexivity
          | exfalso; apply Nat.leb_le in Hlow; vm_compute in Hlow; discriminate Hlow
          | exfalso; apply Nat.ltb_lt in Hhigh; vm_compute in Hhigh; discriminate Hhigh ].
Qed.

Lemma refused_requests_write_nothing_witness :
  users (fst (serve Sample.env_down (Register Sample.jane) Sample.two_accounts))
  = users Sample.two_accounts.
Proof.
  refine (proj1 (refused_requests_write_nothing Sample.env_down (Register Sample.jane)
                   Sample.two_accounts _)).
  vm_compute. split; [apply Nat.leb_le | apply Nat.ltb_lt]; vm_compute; reflexivity.
Defined.

(** ** Calls to the scorer *)

(** One request calls the scorer at most once, and only a trust request or
    a transfer request calls it: registration, login, the status route and
    the history never do.  A request that is refused with a status from 400
    to 499 has not called it, unless it is the trust request refused for the
    score the scorer gave: a missing field, an unknown device, the device
    gate and the balance check cost no call. *)
Theorem scorer_called_at_most_once :
  forall (env : Env) (r : Request) (w : World),
    (scorer_calls (fst (serve env r w)) = scorer_calls w
     \/ exists p,
          scorer_calls (fst (serve env r w)) = p :: scorer_calls w
          /\ ((exists userId req, r = TrustDevice userId req)
              \/ (exists userId req, r = CreateTransfer userId req)))
    /\ (400 <= code (snd (serve env r w)) < 500 ->
        scorer_calls (fst (serve env r w)) = scorer_calls w
        \/ exists reason,
             snd (serve env r w)
             = mkResponse 400 (TrustRejected "Device cannot be trusted due to high risk score"
                                             reason)).
Proof.
  intros env r w.
  destruct r; cbn [serve];
    unfold register, login, deviceStatus, trustDevice, createTransfer, history;
    run_all; split_cases; cbn [code];
    (split;
     [ first [ left; reflexivity
             | right; eexists; split; [reflexivity|]; solve [eauto 10] ]
     | intros [Hlow Hhigh];
       first [ left; reflexivity
             | right; eexists; reflexivity
             | exfalso; apply Nat.leb_le in Hlow; vm_compute in Hlow; discriminate Hlow
             | exfalso; apply Nat.ltb_lt in Hhigh; vm_compute in Hhigh; discriminate Hhigh ] ]).
Qed.

Lemma scorer_called_at_most_once_witness :
  scorer_calls (fst (serve Sample.env_down (CreateTransfer 2 (Sample.transfer 50))
                           Sample.two_accounts))
  = scorer_calls Sample.two_accounts
  \/ exists reason,
       snd (serve Sample.env_down (CreateTransfer 2 (Sample.transfer 50)) Sample.two_accounts)
       = mkResponse 400 (TrustRejected "Device cannot be trusted due to high risk score"
                                       reason).
Proof.
  apply (proj2 (scorer_called_at_most_once Sample.env_down
                  (CreateTransfer 2 (Sample.transfer 50)) Sample.two_accounts)).
  vm_compute. split; [apply Nat.leb_le | apply Nat.ltb_lt]; vm_compute; reflexivity.
Defined.

(** ** A device serves one account *)

Lemma device_kept_all (trace : list (Env * Request)) (w : World) (d : Device.t) :
  reachable w -> In d (devices w) ->
  exists d', In d' (devices (serve_all trace w)) /\ same_device d d'.
Proof.
  revert w d. induction trace as [|[env r] trace IH]; intros w d Hw Hd.
  - exists d. split; [assumption | apply same_device_refl].
  - destruct (devices_kept env r w (reachable_fresh_ids w Hw) (reachable_unique_devices w Hw)
                d Hd) as (d1 & Hd1 & Hs1).
    destruct (IH (fst (serve env r w)) d1 (reachable_serve env r w Hw) Hd1)
      as (d2 & Hd2 & Hs2).
    exists d2. split; [exact Hd2 | now apply (same_device_trans d d1 d2)].
Qed.

Lemma not_found_for_another_account (userId : ObjectId) (h : string) (l : list Device.t)
    (d : Device.t) :
  unique_devices l -> In d l -> Device.fingerprint d = h -> Device.userId d <> userId ->
  find (fun v => Nat.eqb (Device.userId v) userId && String.eqb (Device.fingerprint v) h) l
  = None.
Proof.
  intros [_ Hfp] Hin Hh Hu.
  destruct (find _ l) as [x|] eqn:E; [|reflexivity].
  apply find_some in E as [Hx Hp]. apply andb_prop in Hp as [Hxu Hxh].
  apply Nat.eqb_eq in Hxu. apply String.eqb_eq in Hxh.
  assert (x = d) as -> by (apply (NoDup_map_eq Device.fingerprint l); congruence).
  contradiction.
Qed.

(** A device on record serves the account it was first recorded for and no
    other, for good: after any further requests, an account that is not the
    owner is told by the status route that the device is not trusted, has
    its trust request answered 404 "Device not found" and every validated
    transfer from that device answered 403, each with nothing written. *)
Theorem device_serves_one_account_only :
  forall (userId : ObjectId) (fp : Json.attrs) (d : Device.t) (w : World)
         (trace : list (Env * Request)) (env : Env) (req : TransferBody.t),
    reachable w ->
    In d (devices w) ->
    Device.fingerprint d = deviceHash fp ->
    Device.userId d <> userId ->
    validated req = true ->
    TransferBody.deviceFingerprint req = Some fp ->
    let w' := serve_all trace w in
    deviceStatus userId (Some (Json.stringify fp)) w'
    = (w', mkResponse 200 (DeviceStatus false "Device not found in trusted list" None []))
    /\ trustDevice env userId (TrustBody.mk (Some fp)) w'
       = (w', mkResponse 404 (Message "Device not found"))
    /\ createTransfer env userId req w'
       = (w', mkResponse 403 (Message "Device not trusted for transfers")).
Proof.
  intros userId fp d w trace env req Hw Hd Hfp Hu Hv Hreq w'.
  destruct (device_kept_all trace w d Hw Hd) as (d' & Hd' & _ & Hu' & Hfp' & _).
  assert (Hnone : find (fun v => Nat.eqb (Device.userId v) userId
                                 && String.eqb (Device.fingerprint v) (deviceHash fp))
                       (devices w') = None).
  { apply (not_found_for_another_account userId (deviceHash fp) (devices w') d');
      [|exact Hd' | congruence | congruence].
    apply reachable_unique_devices. now apply reachable_serve_all. }
  destruct (validated_inv req Hv) as (recipient & amount & Hr & Ha & Hf & Hle).
  repeat split.
  - unfold deviceStatus. change (JSString.truthy (Some (Json.stringify fp)))
      with (Some (Json.stringify fp)). run.
    change (Sha256.sha256_hex (Json.stringify fp)) with (deviceHash fp).
    now rewrite Hnone.
  - unfold trustDevice. cbn [TrustBody.deviceFingerprint]. run. now rewrite Hnone.
  - unfold createTransfer. rewrite Hr, Ha, Hf, Hle, Hreq. run. now rewrite Hnone.
Qed.

Lemma device_serves_one_account_only_witness :
  createTransfer Sample.env_down 2 (Sample.transfer 50)
    (serve_all [(Sample.env_later, Login Sample.jane_on_johns_phone)] Sample.two_accounts)
  = (serve_all [(Sample.env_later, Login Sample.jane_on_johns_phone)] Sample.two_accounts,
     mkResponse 403 (Message "Device not trusted for transfers")).
Proof.
  refine (proj2 (proj2 (device_serves_one_account_only 2 Sample.iphone
            (Device.mk 1 0 (deviceHash Sample.iphone) (Device.info_of Sample.iphone)
                       false Device.pending (JSNumber.Finite (5 # 10)) None None None 7)
            Sample.two_accounts [(Sample.env_later, Login Sample.jane_on_johns_phone)]
            Sample.env_down (Sample.transfer 50)
            sample_two_accounts_reachable _ _ _ _ _))).
  - vm_compute. left. reflexivity.
  - vm_compute. reflexivity.
  - vm_compute. discriminate.
  - vm_compute. reflexivity.
  - vm_compute. reflexivity.
Defined.

(** ** Which text a field is read from *)

(** [lines.find(l => l.includes(tag))?.split(':')[1]?.trim()] reads the
    field from the first line of the reply when that line contains the tag
    anywhere, whatever the later lines say, and takes the text between the
    first and the second colon of the line: what follows a second colon is
    dropped. *)
Theorem field_is_cut_at_second_colon :
  forall (tag before field after rest : string),
    without LF (before ++ ":" ++ field ++ ":" ++ after) = true ->
    without ":" before = true ->
    without ":" field = true ->
    JSString.includes tag (before ++ ":" ++ field ++ ":" ++ after) = true ->
    tagged_field tag
      (JSString.split LF ((before ++ ":" ++ field ++ ":" ++ after) ++ String LF rest))
    = Some (JSString.trim field).
Proof.
  intros tag before field after rest Hline Hb Hf Htag.
  rewrite (split_append LF _ rest Hline).
  unfold tagged_field. cbn [find]. rewrite Htag.
  unfold JSString.field_after_colon. cbn [append].
  now rewrite (split_append ":" before _ Hb), (split_append ":" field _ Hf).
Qed.

Lemma field_is_cut_at_second_colon_witness :
  tagged_field "REASON"
    (JSString.split LF (("REASON" ++ ":" ++ " Known device" ++ ":" ++ " verified at 12:30")
                        ++ String LF "RISK_SCORE: 0.2"))
  = Some "Known device".
Proof.
  apply (field_is_cut_at_second_colon "REASON" "REASON" " Known device"
           " verified at 12:30" "RISK_SCORE: 0.2"); vm_compute; reflexivity.
Defined.
